(** * torchdpf.models.se2_baseline: network components of the SE(2) particle filter

    A shallow embedding of [src/torchdpf/models/se2_baseline.py]: the three
    network classes ([ObservationalEncoder], [ObservationalLikelihoodEstimator],
    [ActionSampler]), the container [DPF_SE2], their constructors and their
    [forward] methods.

    - A tensor is a shape together with an indexing function.
    - Tensor elements are taken from a [Scalar] interface with two instances:
      [R] (exact arithmetic on finite numbers: no overflow, no NaN) and
      [xreal] ([R] extended with the IEEE-754 special values, the
      infinities and NaN, finite results overflowing to an infinity at
      the binary32 threshold).  Rounding of finite results is not
      modelled.
    - Python exceptions and the random generator are threaded through the
      monad [M]: a computation takes the generator and returns an exception
      or a value, together with the generator it leaves behind. *)

From Stdlib Require Import Reals Lra Lia List String ZArith Bool Arith.
Import ListNotations.
Open Scope string_scope.
Open Scope nat_scope.
Open Scope list_scope.

Set Implicit Arguments.

(** ** Scalars *)

Class Scalar (A : Type) : Type := {
  szero : A;
  sone : A;
  sadd : A -> A -> A;
  ssub : A -> A -> A;
  smul : A -> A -> A;
  sdiv : A -> A -> A;
  srelu : A -> A;          (* torch.relu on one element *)
  ssigmoid : A -> A;       (* torch.sigmoid on one element *)
  sof_nat : nat -> A;      (* an integer count used as a divisor *)
  sltb : A -> A -> bool    (* strict comparison; false when unordered *)
}.

(** *** Exact arithmetic *)

Definition Rsigmoid (r : R) : R := (/ (1 + exp (- r)))%R.

Definition Rltb (a b : R) : bool := if Rlt_dec a b then true else false.

#[export] Instance Scalar_R : Scalar R := {|
  szero := 0%R;
  sone := 1%R;
  sadd := Rplus;
  ssub := Rminus;
  smul := Rmult;
  sdiv := Rdiv;
  srelu := Rmax 0%R;
  ssigmoid := Rsigmoid;
  sof_nat := INR;
  sltb := Rltb
|}.

(** *** Reals with the IEEE special values *)

Inductive xreal : Type :=
| Fin (r : R)
| PInf
| NInf
| NaN.

Definition is_finite (x : xreal) : bool :=
  match x with Fin _ => true | _ => false end.

Inductive sign : Type := Neg | Zer | Pos.

Definition Rsign (r : R) : sign :=
  if Rlt_dec r 0 then Neg else if Rlt_dec 0 r then Pos else Zer.

Definition xsign (x : xreal) : option sign :=
  match x with
  | Fin r => Some (Rsign r)
  | PInf => Some Pos
  | NInf => Some Neg
  | NaN => None
  end.

(** An infinity of the given sign; a zero sign has none and gives NaN
    (infinity times zero, zero over zero). *)
Definition xinf (s : sign) : xreal :=
  match s with Pos => PInf | Neg => NInf | Zer => NaN end.

Definition sign_mul (a b : sign) : sign :=
  match a, b with
  | Zer, _ | _, Zer => Zer
  | Pos, Pos | Neg, Neg => Pos
  | _, _ => Neg
  end.

(** The tensors hold binary32 numbers.  A finite result whose magnitude
    reaches [2^128 - 2^103] (the largest binary32 number plus half a
    unit in its last place) overflows to the infinity of its sign.
    Below that threshold results are kept exact. *)
Definition binary32_overflow : R := IZR (2 ^ 128 - 2 ^ 103).

Definition xround (r : R) : xreal :=
  if Rle_dec binary32_overflow r then PInf
  else if Rle_dec r (- binary32_overflow) then NInf
  else Fin r.

Definition xadd (x y : xreal) : xreal :=
  match x, y with
  | NaN, _ | _, NaN => NaN
  | Fin a, Fin b => xround (a + b)
  | PInf, NInf | NInf, PInf => NaN
  | PInf, _ | _, PInf => PInf
  | NInf, _ | _, NInf => NInf
  end.

Definition xneg (x : xreal) : xreal :=
  match x with
  | Fin a => Fin (- a)
  | PInf => NInf
  | NInf => PInf
  | NaN => NaN
  end.

Definition xsub (x y : xreal) : xreal := xadd x (xneg y).

Definition xmul (x y : xreal) : xreal :=
  match x, y with
  | Fin a, Fin b => xround (a * b)
  | _, _ =>
      match xsign x, xsign y with
      | Some s, Some t => xinf (sign_mul s t)
      | _, _ => NaN
      end
  end.

(** Division never raises: a zero divisor gives an infinity, or NaN for
    a zero dividend (the sign of a zero divisor is taken positive); a
    quotient of finite numbers may overflow. *)
Definition xdiv (x y : xreal) : xreal :=
  match x, y with
  | NaN, _ | _, NaN => NaN
  | Fin a, Fin b =>
      if Req_dec_T b 0 then xinf (Rsign a) else xround (a / b)
  | Fin _, _ => Fin 0
  | _, Fin b =>
      match xsign x with
      | Some s => xinf (sign_mul s (if Rlt_dec b 0 then Neg else Pos))
      | None => NaN
      end
  | _, _ => NaN
  end.

Definition xrelu (x : xreal) : xreal :=
  match x with
  | Fin a => Fin (Rmax 0 a)
  | PInf => PInf
  | NInf => Fin 0
  | NaN => NaN
  end.

Definition xsigmoid (x : xreal) : xreal :=
  match x with
  | Fin a => Fin (Rsigmoid a)
  | PInf => Fin 1
  | NInf => Fin 0
  | NaN => NaN
  end.

Definition xltb (x y : xreal) : bool :=
  match x, y with
  | NaN, _ | _, NaN => false
  | Fin a, Fin b => Rltb a b
  | NInf, NInf | PInf, _ => false
  | NInf, _ => true
  | Fin _, PInf => true
  | Fin _, NInf => false
  end.

#[export] Instance Scalar_xreal : Scalar xreal := {|
  szero := Fin 0;
  sone := Fin 1;
  sadd := xadd;
  ssub := xsub;
  smul := xmul;
  sdiv := xdiv;
  srelu := xrelu;
  ssigmoid := xsigmoid;
  sof_nat := fun n => Fin (INR n);
  sltb := xltb
|}.

(** ** Exceptions, the random generator and the monad of computations *)

Inductive exn : Type :=
| AttributeError (owner attr : string)
| ValueError (msg : string)
| RuntimeError (msg : string)
| IndexError (msg : string)
| TypeError (msg : string).

Definition result (X : Type) : Type := (exn + X)%type.

Definition Ok {X : Type} (x : X) : result X := inr x.
Definition Raise {X : Type} (e : exn) : result X := inl e.

Definition is_error {X : Type} (r : result X) : bool :=
  match r with inl _ => true | inr _ => false end.

(** The global torch generator: the samples it will hand out (as
    standard-normal and as uniform draws) and how many were consumed. *)
Record Generator (A : Type) : Type := {
  normal : nat -> A;
  uniform : nat -> A;
  offset : nat
}.

Definition advance {A : Type} (g : Generator A) (n : nat) : Generator A :=
  {| normal := normal g; uniform := uniform g; offset := offset g + n |}.

Definition M (A X : Type) : Type := Generator A -> result X * Generator A.

Definition ret {A X : Type} (x : X) : M A X := fun g => (Ok x, g).

Definition bind {A X Y : Type} (c : M A X) (k : X -> M A Y) : M A Y :=
  fun g =>
    match c g with
    | (inl e, g') => (inl e, g')
    | (inr x, g') => k x g'
    end.

Definition lift {A X : Type} (r : result X) : M A X := fun g => (r, g).

Notation "x <- c ;; k" := (bind c (fun x => k))
  (at level 61, c at next level, right associativity).

(** ** Tensors *)

Record Tensor (A : Type) : Type := {
  shape : list nat;
  get : list nat -> A
}.

Definition rank {A : Type} (t : Tensor A) : nat := List.length (shape t).

Definition numel (s : list nat) : nat := fold_right Nat.mul 1 s.

(** Row-major position of an index in a tensor of shape [s]. *)
Fixpoint flat_index (s idx : list nat) : nat :=
  match s, idx with
  | _ :: s', i :: idx' => i * numel s' + flat_index s' idx'
  | _, _ => 0
  end.

(** An index addresses an element when it is below the shape in every
    dimension. *)
Definition in_range (s idx : list nat) : Prop := Forall2 lt idx s.

Definition insert_at {X : Type} (n : nat) (x : X) (l : list X) : list X :=
  firstn n l ++ x :: skipn n l.

Definition remove_at {X : Type} (n : nat) (l : list X) : list X :=
  firstn n l ++ skipn (S n) l.

Definition replace_at {X : Type} (n : nat) (x : X) (l : list X) : list X :=
  firstn n l ++ x :: skipn (S n) l.

Section Tensors.
Context {A : Type} `{Scalar A}.

Definition tmap (f : A -> A) (t : Tensor A) : Tensor A :=
  {| shape := shape t; get := fun idx => f (get t idx) |}.

(** [t.unsqueeze(1)]. *)
Definition unsqueeze1 (t : Tensor A) : result (Tensor A) :=
  if rank t =? 0
  then Raise (IndexError "Dimension out of range")
  else Ok {| shape := insert_at 1 1 (shape t);
             get := fun idx => get t (remove_at 1 idx) |}.

(** [t[:, None]]. *)
Definition index_colon_none (t : Tensor A) : result (Tensor A) :=
  if rank t =? 0
  then Raise (IndexError "too many indices for tensor of dimension 0")
  else Ok {| shape := insert_at 1 1 (shape t);
             get := fun idx => get t (remove_at 1 idx) |}.

(** [t.shape[1]]. *)
Definition shape1 (t : Tensor A) : result nat :=
  match nth_error (shape t) 1 with
  | Some n => Ok n
  | None => Raise (IndexError "tuple index out of range")
  end.

(** Broadcasting of two shapes, aligned on the last dimension; the
    lists are given last dimension first. *)
Fixpoint broadcast_rev (a b : list nat) : option (list nat) :=
  match a, b with
  | [], _ => Some b
  | _, [] => Some a
  | x :: a', y :: b' =>
      match broadcast_rev a' b' with
      | None => None
      | Some r =>
          if x =? y then Some (x :: r)
          else if x =? 1 then Some (y :: r)
          else if y =? 1 then Some (x :: r)
          else None
      end
  end.

Definition broadcast_shapes (a b : list nat) : option (list nat) :=
  option_map (@rev nat) (broadcast_rev (rev a) (rev b)).

(** The index of the element of a tensor of shape [s] that a broadcast
    result reads at [idx]: leading dimensions are dropped and
    dimensions of size one are read at zero. *)
Definition project (s idx : list nat) : list nat :=
  map (fun di => if fst di =? 1 then 0 else snd di)
      (combine s (skipn (List.length idx - List.length s) idx)).

Definition tbinop (op : A -> A -> A) (t1 t2 : Tensor A) : result (Tensor A) :=
  match broadcast_shapes (shape t1) (shape t2) with
  | None => Raise (RuntimeError "The size of tensor a must match the size of tensor b")
  | Some s =>
      Ok {| shape := s;
            get := fun idx => op (get t1 (project (shape t1) idx))
                                 (get t2 (project (shape t2) idx)) |}
  end.

(** An in-place operation: the broadcast shape has to be the shape of
    the tensor written to. *)
Definition tbinop_inplace (op : A -> A -> A) (t1 t2 : Tensor A) : result (Tensor A) :=
  match broadcast_shapes (shape t1) (shape t2) with
  | None => Raise (RuntimeError "The size of tensor a must match the size of tensor b")
  | Some s =>
      if list_eq_dec Nat.eq_dec s (shape t1)
      then Ok {| shape := s;
                 get := fun idx => op (get t1 idx)
                                      (get t2 (project (shape t2) idx)) |}
      else Raise (RuntimeError "output with shape doesn't match the broadcast shape")
  end.

(** [t.expand(-1, p, -1)]. *)
Definition expand_m1_p_m1 (t : Tensor A) (p : nat) : result (Tensor A) :=
  match shape t with
  | [b; q; a] =>
      if (q =? p) || (q =? 1)
      then Ok {| shape := [b; p; a];
                 get := fun idx => get t (project (shape t) idx) |}
      else Raise (RuntimeError "The expanded size of the tensor must match the existing size")
  | [] | [_] | [_; _] =>
      Raise (RuntimeError "expand: -1 is not allowed in a leading, non-existing dimension")
  | _ =>
      Raise (RuntimeError "expand: the number of sizes must be at least the number of dimensions")
  end.

(** [torch.randn_like(t)]: one draw per element, in row-major order. *)
Definition randn_like (t : Tensor A) : M A (Tensor A) :=
  fun g =>
    (Ok {| shape := shape t;
           get := fun idx => normal g (offset g + flat_index (shape t) idx) |},
     advance g (numel (shape t))).

(** [torch.cat([t1, t2], dim=-1)]. *)
Definition cat_last (t1 t2 : Tensor A) : result (Tensor A) :=
  match rev (shape t1), rev (shape t2) with
  | d1 :: r1, d2 :: r2 =>
      if list_eq_dec Nat.eq_dec r1 r2
      then Ok {| shape := rev r1 ++ [d1 + d2];
                 get := fun idx =>
                   let k := last idx 0 in
                   if k <? d1 then get t1 idx
                   else get t2 (removelast idx ++ [k - d1]) |}
      else Raise (RuntimeError "Sizes of tensors must match except in dimension -1")
  | _, _ => Raise (RuntimeError "zero-dimensional tensor cannot be concatenated")
  end.

(** Sum of [f 0 .. f (n-1)]. *)
Fixpoint ssum (n : nat) (f : nat -> A) : A :=
  match n with
  | 0 => szero
  | S n' => sadd (ssum n' f) (f n')
  end.

(** [t.mean(dim=1, keepdim=True)]. *)
Definition mean_dim1_keepdim (t : Tensor A) : result (Tensor A) :=
  match nth_error (shape t) 1 with
  | None => Raise (IndexError "Dimension out of range")
  | Some p =>
      Ok {| shape := replace_at 1 1 (shape t);
            get := fun idx =>
              sdiv (ssum p (fun i => get t (replace_at 1 i idx))) (sof_nat p) |}
  end.

End Tensors.

(** ** The torch layers used by the models *)

Inductive Padding : Type :=
| PadSame
| PadValid
| PadNum (n : nat).

(** Position [k] of a tensor of shape [s], as an index (row-major). *)
Fixpoint unflat_index (s : list nat) (k : nat) : list nat :=
  match s with
  | [] => []
  | _ :: s' => (k / numel s') :: unflat_index s' (k mod numel s')
  end.

Section Layers.
Context {A : Type} `{Scalar A}.

(** *** nn.Linear *)

Record Linear : Type := {
  in_features : nat;
  out_features : nat;
  weight : nat -> nat -> A;     (* weight[j][k], j < out_features, k < in_features *)
  bias : nat -> A
}.

(** [nn.Linear(in_features, out_features)]: the parameters are filled
    from the generator (the scaling of the default initialisation is
    not modelled). *)
Definition Linear_new (n_in n_out : nat) : M A Linear :=
  fun g =>
    (Ok {| in_features := n_in;
           out_features := n_out;
           weight := fun j k => uniform g (offset g + j * n_in + k);
           bias := fun j => uniform g (offset g + n_out * n_in + j) |},
     advance g (n_out * n_in + n_out)).

(** The layer acts on the last dimension, whatever the rank. *)
Definition Linear_forward (l : Linear) (x : Tensor A) : result (Tensor A) :=
  match rev (shape x) with
  | [] => Raise (RuntimeError "linear: the input needs at least one dimension")
  | d :: r =>
      if d =? in_features l
      then Ok {| shape := rev r ++ [out_features l];
                 get := fun idx =>
                   let j := last idx 0 in
                   sadd (ssum (in_features l)
                              (fun k => smul (get x (removelast idx ++ [k]))
                                             (weight l j k)))
                        (bias l j) |}
      else Raise (RuntimeError "mat1 and mat2 shapes cannot be multiplied")
  end.

(** *** nn.ReLU, nn.Sigmoid *)

Definition ReLU_forward (x : Tensor A) : Tensor A := tmap srelu x.

Definition Sigmoid_forward (x : Tensor A) : Tensor A := tmap ssigmoid x.

(** *** nn.Conv2d *)

Record Conv2d : Type := {
  in_channels : nat;
  out_channels : nat;
  kernel_size : nat;
  stride : nat;
  padding : Padding;
  cweight : nat -> nat -> nat -> nat -> A;   (* weight[o][c][u][v] *)
  cbias : nat -> A
}.

(** [nn.Conv2d(in_channels, out_channels, kernel_size, stride, padding)].
    The constructor refuses the padding mode 'same' together with a
    stride other than one. *)
Definition Conv2d_new (c_in c_out k s : nat) (pad : Padding) : M A Conv2d :=
  let same_and_strided :=
    match pad with
    | PadSame => negb (s =? 1)
    | _ => false
    end in
  if same_and_strided
  then lift (Raise (ValueError "padding='same' is not supported for strided convolutions"))
  else fun g =>
    (Ok {| in_channels := c_in; out_channels := c_out;
           kernel_size := k; stride := s; padding := pad;
           cweight := fun o c u v =>
             uniform g (offset g + ((o * c_in + c) * k + u) * k + v);
           cbias := fun o => uniform g (offset g + c_out * c_in * k * k + o) |},
     advance g (c_out * c_in * k * k + c_out)).

(** Padding before and after, along one spatial dimension. *)
Definition pad_amounts (c : Conv2d) : result (nat * nat) :=
  match padding c with
  | PadValid => Ok (0, 0)
  | PadNum n => Ok (n, n)
  | PadSame =>
      if stride c =? 1
      then Ok ((kernel_size c - 1) / 2, (kernel_size c - 1) - (kernel_size c - 1) / 2)
      else Raise (RuntimeError "padding='same' is not supported for strided convolutions")
  end.

(** Output size along one spatial dimension of size [n]. *)
Definition conv_out_size (c : Conv2d) (pads : nat * nat) (n : nat) : nat :=
  (n + fst pads + snd pads - kernel_size c) / stride c + 1.

(** One output element: [rd ch y x] reads the input image, which is
    zero outside its [h] rows and [w] columns. *)
Definition conv_at (c : Conv2d) (pl h w : nat) (rd : nat -> nat -> nat -> A)
    (o i j : nat) : A :=
  sadd
    (ssum (in_channels c) (fun ch =>
       ssum (kernel_size c) (fun u =>
         ssum (kernel_size c) (fun v =>
           let y := i * stride c + u in
           let x := j * stride c + v in
           smul (if (pl <=? y) && (y <? pl + h) && (pl <=? x) && (x <? pl + w)
                 then rd ch (y - pl) (x - pl)
                 else szero)
                (cweight c o ch u v)))))
    (cbias c o).

Definition conv_checks (c : Conv2d) (ch h w : nat) : result (nat * nat) :=
  match pad_amounts c with
  | inl e => inl e
  | inr pads =>
      if negb (ch =? in_channels c)
      then Raise (RuntimeError "conv2d: the input has the wrong number of channels")
      else if stride c =? 0
      then Raise (RuntimeError "non-positive stride is not supported")
      else if (h + fst pads + snd pads <? kernel_size c)
              || (w + fst pads + snd pads <? kernel_size c)
      then Raise (RuntimeError "Kernel size can't be greater than actual input size")
      else Ok pads
  end.

(** The layer takes a batch (N, C, H, W) or one image (C, H, W). *)
Definition Conv2d_forward (c : Conv2d) (x : Tensor A) : result (Tensor A) :=
  match shape x with
  | [n; ch; h; w] =>
      match conv_checks c ch h w with
      | inl e => inl e
      | inr pads =>
          Ok {| shape := [n; out_channels c;
                          conv_out_size c pads h; conv_out_size c pads w];
                get := fun idx =>
                  conv_at c (fst pads) h w
                    (fun ch' y x' => get x [nth 0 idx 0; ch'; y; x'])
                    (nth 1 idx 0) (nth 2 idx 0) (nth 3 idx 0) |}
      end
  | [ch; h; w] =>
      match conv_checks c ch h w with
      | inl e => inl e
      | inr pads =>
          Ok {| shape := [out_channels c;
                          conv_out_size c pads h; conv_out_size c pads w];
                get := fun idx =>
                  conv_at c (fst pads) h w
                    (fun ch' y x' => get x [ch'; y; x'])
                    (nth 0 idx 0) (nth 1 idx 0) (nth 2 idx 0) |}
      end
  | _ => Raise (RuntimeError "conv2d: expected a 3D (unbatched) or 4D (batched) input")
  end.

(** *** nn.Dropout *)

Record Dropout : Type := {
  drop_p : A;
  dropout_training : bool
}.

Definition Dropout_new (rate : A) : result Dropout :=
  if sltb rate szero || sltb sone rate
  then Raise (ValueError "dropout probability has to be between 0 and 1")
  else Ok {| drop_p := rate; dropout_training := true |}.

(** In training mode every element is zeroed when its uniform draw is
    below [p], and divided by [1 - p] otherwise; in evaluation mode the
    layer is the identity and draws nothing. *)
Definition Dropout_forward (d : Dropout) (x : Tensor A) : M A (Tensor A) :=
  if dropout_training d
  then fun g =>
    (Ok {| shape := shape x;
           get := fun idx =>
             if sltb (uniform g (offset g + flat_index (shape x) idx)) (drop_p d)
             then szero
             else sdiv (get x idx) (ssub sone (drop_p d)) |},
     advance g (numel (shape x)))
  else ret x.

(** *** nn.Flatten(start_dim=1) *)

Definition Flatten_forward (x : Tensor A) : result (Tensor A) :=
  match shape x with
  | n :: (_ :: _) as rest =>
      Ok {| shape := [n; numel rest];
            get := fun idx => get x (nth 0 idx 0 :: unflat_index rest (nth 1 idx 0)) |}
  | _ => Raise (IndexError "Dimension out of range")
  end.

End Layers.

Arguments Linear A : clear implicits.
Arguments Conv2d A : clear implicits.
Arguments Dropout A : clear implicits.

(** ** Python objects: attributes, instances and the module namespace *)

Inductive Layer (A : Type) : Type :=
| LConv2d (c : Conv2d A)
| LLinear (l : Linear A)
| LDropout (d : Dropout A)
| LFlatten
| LReLU
| LSigmoid.

Arguments LFlatten {A}.
Arguments LReLU {A}.
Arguments LSigmoid {A}.

Inductive pyobj (A : Type) : Type :=
| PyNone
| PyTensor (t : Tensor A)
| PyLayer (l : Layer A)
| PyFloat (a : A)
| PyInt (n : nat)
| PyBool (b : bool)
| PyFunction (qualname : string)      (* a function defined with def *)
| PyMethod (cls name : string)        (* a method found on the class *)
| PyClass (name : string)
| PyPackage (name : string).

Arguments PyNone {A}.
Arguments PyInt {A} n.
Arguments PyBool {A} b.
Arguments PyFunction {A} qualname.
Arguments PyMethod {A} cls name.
Arguments PyClass {A} name.
Arguments PyPackage {A} name.

Fixpoint assoc {X : Type} (name : string) (l : list (string * X)) : option X :=
  match l with
  | [] => None
  | (k, v) :: l' => if String.eqb name k then Some v else assoc name l'
  end.

(** The names bound at the top level of se2_baseline.py: the three
    imports of lines 1-4 and the four classes. *)
Definition module_globals {A : Type} : list (string * pyobj A) :=
  [ ("np", PyPackage "numpy");
    ("torch", PyPackage "torch");
    ("nn", PyPackage "torch.nn");
    ("init_xavier_normal", PyFunction "init_xavier_normal");
    ("DPF_SE2", PyClass "DPF_SE2");
    ("ObservationalEncoder", PyClass "ObservationalEncoder");
    ("ObservationalLikelihoodEstimator", PyClass "ObservationalLikelihoodEstimator");
    ("ActionSampler", PyClass "ActionSampler") ].

(** What every nn.Module has: the names defined by the base class. *)
Definition nn_Module_names : list string :=
  [ "__init__"; "__call__"; "forward"; "register_buffer"; "register_parameter";
    "add_module"; "register_module"; "get_submodule"; "get_parameter";
    "get_buffer"; "get_extra_state"; "set_extra_state"; "apply"; "cuda";
    "ipu"; "xpu"; "cpu"; "type"; "float"; "double"; "half"; "bfloat16";
    "to_empty"; "to"; "register_full_backward_pre_hook";
    "register_backward_hook"; "register_full_backward_hook";
    "register_forward_pre_hook"; "register_forward_hook"; "state_dict";
    "load_state_dict"; "parameters"; "named_parameters"; "buffers";
    "named_buffers"; "children"; "named_children"; "modules";
    "named_modules"; "train"; "eval"; "requires_grad_"; "zero_grad";
    "share_memory"; "extra_repr"; "compile"; "dump_patches";
    "call_super_init" ].

(** An instance of a class derived from nn.Module, as attribute lookup
    sees it: the methods its class defines and the attributes assigned
    to it, in the order of assignment. *)
Record Instance (A : Type) : Type := {
  class_name : string;
  class_methods : list string;
  attributes : list (string * pyobj A)
}.

(** [self.name]: an assigned attribute, else a method of the class or
    of nn.Module, else AttributeError. *)
Definition getattr {A : Type} (self : Instance A) (name : string) : result (pyobj A) :=
  match assoc name (attributes self) with
  | Some v => Ok v
  | None =>
      if existsb (String.eqb name) (class_methods self ++ nn_Module_names)
      then Ok (PyMethod (class_name self) name)
      else Raise (AttributeError (class_name self) name)
  end.

(** The bare name [name] in a method body: a module-level binding. *)
Definition lookup_global {A : Type} (name : string) : option (pyobj A) :=
  assoc name module_globals.

(** The sub-modules of an instance, in registration order. *)
Fixpoint children {A : Type} (attrs : list (string * pyobj A)) : list (string * Layer A) :=
  match attrs with
  | [] => []
  | (k, PyLayer l) :: rest => (k, l) :: children rest
  | _ :: rest => children rest
  end.

(** What a function passed to [nn.Module.apply] does to the layers that
    carry weights. *)
Record Initializer (A : Type) : Type := {
  on_conv2d : Conv2d A -> M A (Conv2d A);
  on_linear : Linear A -> M A (Linear A)
}.

(** [nn.Module.apply(fn)] needs a function on modules.  The one function
    on modules that the namespace of se2_baseline.py binds is the
    imported initialiser; its body (torchdpf/models/initializations.py)
    is not part of these sources and is the parameter [xavier]. *)
Definition callable_on_modules {A : Type} (xavier : Initializer A) (fn : pyobj A)
    : result (Initializer A) :=
  match fn with
  | PyFunction name =>
      if String.eqb name "init_xavier_normal"
      then Ok xavier
      else Raise (TypeError "the function does not take a module")
  | _ => Raise (TypeError "the object cannot be applied to a module")
  end.

(** ** class DPF_SE2 (lines 6-12) *)

Module DPF_SE2.

Record t : Type := {
  training : bool
}.

Definition instance {A : Type} (self : t) : Instance A :=
  {| class_name := "DPF_SE2";
     class_methods := ["__init__"];
     attributes := [("training", PyBool (training self))] |}.

(** [nn.Module.__init__] puts the module in training mode with no
    parameter, buffer or sub-module; the class adds nothing. *)
Definition init {A : Type} : M A t :=
  ret {| training := true |}.

End DPF_SE2.

(** ** class ObservationalEncoder (lines 14-74) *)

Module ObservationalEncoder.

Section WithScalar.
Context {A : Type} `{Scalar A}.

Record t : Type := {
  training : bool;
  conv1 : Conv2d A;
  conv2 : Conv2d A;
  conv3 : Conv2d A;
  dropout : Dropout A;
  fc : Linear A
  (* self.flatten and self.relu carry no state *)
}.

Definition instance (self : t) : Instance A :=
  {| class_name := "ObservationalEncoder";
     class_methods := ["__init__"; "forward"];
     attributes :=
       [ ("training", PyBool (training self));
         ("conv1", PyLayer (LConv2d (conv1 self)));
         ("conv2", PyLayer (LConv2d (conv2 self)));
         ("conv3", PyLayer (LConv2d (conv3 self)));
         ("dropout", PyLayer (LDropout (dropout self)));
         ("flatten", PyLayer LFlatten);
         ("fc", PyLayer (LLinear (fc self)));
         ("relu", PyLayer LReLU) ] |}.

Definition default_in_channels : nat := 3.
Definition default_dropout_rate : A := sdiv (sof_nat 3) (sof_nat 10).

(** Lines 36-60: the layers. *)
Definition layers (H W in_channels : nat) (dropout_rate : A) : M A t :=
  let conv1_num_filters := 16 in
  let conv2_num_filters := 32 in
  let conv3_num_filters := 64 in
  let fc_num_features := 128 in
  conv1 <- Conv2d_new in_channels conv1_num_filters 3 2 PadSame ;;
  conv2 <- Conv2d_new conv1_num_filters conv2_num_filters 3 2 PadSame ;;
  conv3 <- Conv2d_new conv2_num_filters conv3_num_filters 3 2 PadSame ;;
  dropout <- lift (Dropout_new dropout_rate) ;;
  fc <- Linear_new (conv3_num_filters * (H / 8) * (W / 8)) fc_num_features ;;
  ret {| training := true; conv1 := conv1; conv2 := conv2; conv3 := conv3;
         dropout := dropout; fc := fc |}.

(** [self.apply(fn)]: [fn] visits the sub-modules in registration
    order, then the module itself. *)
Definition apply (xavier : Initializer A) (fn : pyobj A) (self : t) : M A t :=
  f <- lift (callable_on_modules xavier fn) ;;
  c1 <- on_conv2d f (conv1 self) ;;
  c2 <- on_conv2d f (conv2 self) ;;
  c3 <- on_conv2d f (conv3 self) ;;
  l <- on_linear f (fc self) ;;
  ret {| training := training self; conv1 := c1; conv2 := c2; conv3 := c3;
         dropout := dropout self; fc := l |}.

(** Line 63: [self.apply(self.init_xavier_normal)]. *)
Definition initialize (xavier : Initializer A) (self : t) : M A t :=
  fn <- lift (getattr (instance self) "init_xavier_normal") ;;
  apply xavier fn self.

Definition init (xavier : Initializer A) (H W in_channels : nat) (dropout_rate : A)
    : M A t :=
  self <- layers H W in_channels dropout_rate ;;
  initialize xavier self.

(** [self.train(mode)] / [self.eval()]. *)
Definition train (mode : bool) (self : t) : t :=
  {| training := mode; conv1 := conv1 self; conv2 := conv2 self;
     conv3 := conv3 self;
     dropout := {| drop_p := drop_p (dropout self); dropout_training := mode |};
     fc := fc self |}.

Definition forward (self : t) (x : Tensor A) : M A (Tensor A) :=
  x <- lift (Conv2d_forward (conv1 self) x) ;;
  let x := ReLU_forward x in
  x <- lift (Conv2d_forward (conv2 self) x) ;;
  let x := ReLU_forward x in
  x <- lift (Conv2d_forward (conv3 self) x) ;;
  let x := ReLU_forward x in
  x <- Dropout_forward (dropout self) x ;;
  x <- lift (Flatten_forward x) ;;
  x <- lift (Linear_forward (fc self) x) ;;
  let x := ReLU_forward x in
  ret x.

End WithScalar.

Arguments t A : clear implicits.

End ObservationalEncoder.

(** ** class ObservationalLikelihoodEstimator (lines 76-114) *)

Module ObservationalLikelihoodEstimator.

Section WithScalar.
Context {A : Type} `{Scalar A}.

Record t : Type := {
  training : bool;
  min_observation_likelihood : A;
  fc1 : Linear A;
  fc2 : Linear A;
  fc3 : Linear A
  (* self.relu and self.sigmoid carry no state *)
}.

Definition instance (self : t) : Instance A :=
  {| class_name := "ObservationalLikelihoodEstimator";
     class_methods := ["__init__"; "forward"];
     attributes :=
       [ ("training", PyBool (training self));
         ("min_observation_likelihood", PyFloat (min_observation_likelihood self));
         ("fc1", PyLayer (LLinear (fc1 self)));
         ("fc2", PyLayer (LLinear (fc2 self)));
         ("fc3", PyLayer (LLinear (fc3 self)));
         ("relu", PyLayer LReLU);
         ("sigmoid", PyLayer LSigmoid) ] |}.

Definition default_in_features : nat := 128.
Definition default_min_observation_likelihood : A :=
  sdiv (sof_nat 4) (sof_nat 1000).

(** Lines 89-101: the layers. *)
Definition layers (in_features : nat) (min_observation_likelihood : A) : M A t :=
  let fc1_num_features := 128 in
  let fc2_num_features := 128 in
  let fc3_num_features := 1 in
  fc1 <- Linear_new in_features fc1_num_features ;;
  fc2 <- Linear_new fc1_num_features fc2_num_features ;;
  fc3 <- Linear_new fc2_num_features fc3_num_features ;;
  ret {| training := true;
         min_observation_likelihood := min_observation_likelihood;
         fc1 := fc1; fc2 := fc2; fc3 := fc3 |}.

Definition apply (xavier : Initializer A) (fn : pyobj A) (self : t) : M A t :=
  f <- lift (callable_on_modules xavier fn) ;;
  l1 <- on_linear f (fc1 self) ;;
  l2 <- on_linear f (fc2 self) ;;
  l3 <- on_linear f (fc3 self) ;;
  ret {| training := training self;
         min_observation_likelihood := min_observation_likelihood self;
         fc1 := l1; fc2 := l2; fc3 := l3 |}.

(** Line 104: [self.apply(self.init_xavier_normal)]. *)
Definition initialize (xavier : Initializer A) (self : t) : M A t :=
  fn <- lift (getattr (instance self) "init_xavier_normal") ;;
  apply xavier fn self.

Definition init (xavier : Initializer A) (in_features : nat)
    (min_observation_likelihood : A) : M A t :=
  self <- layers in_features min_observation_likelihood ;;
  initialize xavier self.

Definition train (mode : bool) (self : t) : t :=
  {| training := mode;
     min_observation_likelihood := min_observation_likelihood self;
     fc1 := fc1 self; fc2 := fc2 self; fc3 := fc3 self |}.

Definition forward (self : t) (x : Tensor A) : M A (Tensor A) :=
  x <- lift (Linear_forward (fc1 self) x) ;;
  let x := ReLU_forward x in
  x <- lift (Linear_forward (fc2 self) x) ;;
  let x := ReLU_forward x in
  x <- lift (Linear_forward (fc3 self) x) ;;
  let x := Sigmoid_forward x in
  let x := tmap (fun v =>
                   sadd (smul v (ssub sone (min_observation_likelihood self)))
                        (min_observation_likelihood self)) x in
  ret x.

End WithScalar.

Arguments t A : clear implicits.

End ObservationalLikelihoodEstimator.

(** ** class ActionSampler (lines 117-191) *)

Module ActionSampler.

Section WithScalar.
Context {A : Type} `{Scalar A}.

Record t : Type := {
  training : bool;
  action_dim : nat;
  state_dim : nat;
  noise_dim : nat;
  fc1 : Linear A;
  fc2 : Linear A;
  fc3 : Linear A
  (* self.relu carries no state *)
}.

Definition instance (self : t) : Instance A :=
  {| class_name := "ActionSampler";
     class_methods := ["__init__"; "generate_motion_noise"; "forward"];
     attributes :=
       [ ("training", PyBool (training self));
         ("action_dim", PyInt (action_dim self));
         ("state_dim", PyInt (state_dim self));
         ("noise_dim", PyInt (noise_dim self));
         ("fc1", PyLayer (LLinear (fc1 self)));
         ("fc2", PyLayer (LLinear (fc2 self)));
         ("fc3", PyLayer (LLinear (fc3 self)));
         ("relu", PyLayer LReLU) ] |}.

Definition default_action_dim : nat := 3.
Definition default_state_dim : nat := 3.
Definition default_noise_dim : option nat := None.

(** Lines 129-150: the dimensions and the layers. *)
Definition layers (action_dim state_dim : nat) (noise_dim : option nat) : M A t :=
  let self_noise_dim :=
    match noise_dim with
    | None => action_dim
    | Some n => n
    end in
  let fc1_num_features := 32 in
  let fc2_num_features := 32 in
  let fc3_num_features := action_dim in     (* assigned at line 139, not used *)
  fc1 <- Linear_new (action_dim + self_noise_dim) fc1_num_features ;;
  fc2 <- Linear_new fc1_num_features fc2_num_features ;;
  fc3 <- Linear_new fc2_num_features state_dim ;;
  ret {| training := true; action_dim := action_dim; state_dim := state_dim;
         noise_dim := self_noise_dim; fc1 := fc1; fc2 := fc2; fc3 := fc3 |}.

Definition apply (xavier : Initializer A) (fn : pyobj A) (self : t) : M A t :=
  f <- lift (callable_on_modules xavier fn) ;;
  l1 <- on_linear f (fc1 self) ;;
  l2 <- on_linear f (fc2 self) ;;
  l3 <- on_linear f (fc3 self) ;;
  ret {| training := training self; action_dim := action_dim self;
         state_dim := state_dim self; noise_dim := noise_dim self;
         fc1 := l1; fc2 := l2; fc3 := l3 |}.

(** Line 153: [self.apply(self.init_xavier_normal)]. *)
Definition initialize (xavier : Initializer A) (self : t) : M A t :=
  fn <- lift (getattr (instance self) "init_xavier_normal") ;;
  apply xavier fn self.

Definition init (xavier : Initializer A) (action_dim state_dim : nat)
    (noise_dim : option nat) : M A t :=
  self <- layers action_dim state_dim noise_dim ;;
  initialize xavier self.

(** Lines 155-163.  The body ends after the last assignment: the method
    has no return statement, so a call evaluates to None. *)
Definition generate_motion_noise (self : t) (x : Tensor A) : M A (pyobj A) :=
  x <- lift (Linear_forward (fc1 self) x) ;;
  let x := ReLU_forward x in
  x <- lift (Linear_forward (fc2 self) x) ;;
  let x := ReLU_forward x in
  x <- lift (Linear_forward (fc3 self) x) ;;
  ret PyNone.

(** Line 167: [actions / stds[:, None]]. *)
Definition normalize_actions (actions stds : Tensor A) : result (Tensor A) :=
  match index_colon_none stds with
  | inl e => inl e
  | inr s => tbinop sdiv actions s
  end.

(** Lines 170-171: [.unsqueeze(1).expand(-1, particles.shape[1], -1)]. *)
Definition expand_over_particles (actions_normalized particles : Tensor A)
    : result (Tensor A) :=
  match unsqueeze1 actions_normalized with
  | inl e => inl e
  | inr u =>
      match shape1 particles with
      | inl e => inl e
      | inr n => expand_m1_p_m1 u n
      end
  end.

(** Line 183: [delta.detach()].  The gradient graph is not modelled, so
    on a tensor the call changes nothing; None has no such method. *)
Definition detach (delta : pyobj A) : result (Tensor A) :=
  match delta with
  | PyTensor d => Ok d
  | PyNone => Raise (AttributeError "NoneType" "detach")
  | PyLayer _ => Raise (AttributeError "Module" "detach")
  | PyFloat _ => Raise (AttributeError "float" "detach")
  | PyInt _ => Raise (AttributeError "int" "detach")
  | PyBool _ => Raise (AttributeError "bool" "detach")
  | PyFunction _ => Raise (AttributeError "function" "detach")
  | PyMethod _ _ => Raise (AttributeError "method" "detach")
  | PyClass _ => Raise (AttributeError "type" "detach")
  | PyPackage _ => Raise (AttributeError "module" "detach")
  end.

(** Line 186: [delta -= delta.mean(dim=1, keepdim=True)]. *)
Definition zero_mean (delta : Tensor A) : result (Tensor A) :=
  match mean_dim1_keepdim delta with
  | inl e => inl e
  | inr m => tbinop_inplace ssub delta m
  end.

(** Line 189: [actions.unsqueeze(1) + delta]. *)
Definition add_noise (actions delta : Tensor A) : result (Tensor A) :=
  match unsqueeze1 actions with
  | inl e => inl e
  | inr u => tbinop sadd u delta
  end.

Definition forward (self : t) (actions stds particles : Tensor A) : M A (Tensor A) :=
  actions_normalized <- lift (normalize_actions actions stds) ;;
  actions_expanded <- lift (expand_over_particles actions_normalized particles) ;;
  random_input <- randn_like actions_expanded ;;
  x <- lift (cat_last actions_expanded random_input) ;;
  delta <- generate_motion_noise self x ;;
  delta <- lift (detach delta) ;;
  delta <- lift (zero_mean delta) ;;
  noisy_actions <- lift (add_noise actions delta) ;;
  ret noisy_actions.

End WithScalar.

Arguments t A : clear implicits.

End ActionSampler.

(** ** Concrete objects used in the examples *)

(** A generator whose draws are all zero. *)
Definition zero_generator : Generator R :=
  {| normal := fun _ => 0%R; uniform := fun _ => 0%R; offset := 0 |}.

Definition full {A : Type} (s : list nat) (v : A) : Tensor A :=
  {| shape := s; get := fun _ => v |}.

Definition zero_linear (n_in n_out : nat) : Linear R :=
  {| in_features := n_in; out_features := n_out;
     weight := fun _ _ => 0%R; bias := fun _ => 0%R |}.

(** The sampler that lines 129-150 of [ActionSampler()] build from the
    zero generator. *)
Definition sampler0 : ActionSampler.t R :=
  {| ActionSampler.training := true;
     ActionSampler.action_dim := 3;
     ActionSampler.state_dim := 3;
     ActionSampler.noise_dim := 3;
     ActionSampler.fc1 := zero_linear 6 32;
     ActionSampler.fc2 := zero_linear 32 32;
     ActionSampler.fc3 := zero_linear 32 3 |}.

(** The estimator that lines 89-101 of
    [ObservationalLikelihoodEstimator()] build from the zero generator. *)
Definition estimator0 : ObservationalLikelihoodEstimator.t R :=
  {| ObservationalLikelihoodEstimator.training := true;
     ObservationalLikelihoodEstimator.min_observation_likelihood :=
       ObservationalLikelihoodEstimator.default_min_observation_likelihood;
     ObservationalLikelihoodEstimator.fc1 := zero_linear 128 128;
     ObservationalLikelihoodEstimator.fc2 := zero_linear 128 128;
     ObservationalLikelihoodEstimator.fc3 := zero_linear 128 1 |}.

(** The embedding of finite tensors into tensors with special values. *)
Definition finite_tensor (t : Tensor R) : Tensor xreal :=
  {| shape := shape t; get := fun idx => Fin (get t idx) |}.

(** The layout that lines 94-99 give the estimator's layers. *)
Definition estimator_layout {A : Type} (n : nat)
    (self : ObservationalLikelihoodEstimator.t A) : Prop :=
  in_features (ObservationalLikelihoodEstimator.fc1 self) = n /\
  out_features (ObservationalLikelihoodEstimator.fc1 self) = 128 /\
  in_features (ObservationalLikelihoodEstimator.fc2 self) = 128 /\
  out_features (ObservationalLikelihoodEstimator.fc2 self) = 128 /\
  in_features (ObservationalLikelihoodEstimator.fc3 self) = 128 /\
  out_features (ObservationalLikelihoodEstimator.fc3 self) = 1.

(** A convolution with kernel 3x3 and stride 2 whose padding is written
    as the number 1 instead of the mode 'same', with zero weights and
    unit bias. *)
Definition strided_conv (c_in c_out : nat) : Conv2d R :=
  {| in_channels := c_in; out_channels := c_out; kernel_size := 3; stride := 2;
     padding := PadNum 1;
     cweight := fun _ _ _ _ => 0%R; cbias := fun _ => 1%R |}.

(** An encoder for 8x8 images with three channels, in the given mode. *)
Definition encoder0 (mode : bool) : ObservationalEncoder.t R :=
  {| ObservationalEncoder.training := mode;
     ObservationalEncoder.conv1 := strided_conv 3 16;
     ObservationalEncoder.conv2 := strided_conv 16 32;
     ObservationalEncoder.conv3 := strided_conv 32 64;
     ObservationalEncoder.dropout :=
       {| drop_p := (3 / 10)%R; dropout_training := mode |};
     ObservationalEncoder.fc :=
       {| in_features := 64; out_features := 128;
          weight := fun _ _ => 1%R; bias := fun _ => 0%R |} |}.

(** A generator whose uniform draws are all one: dropout keeps every
    element.  With [zero_generator] it drops every element. *)
Definition one_generator : Generator R :=
  {| normal := fun _ => 0%R; uniform := fun _ => 1%R; offset := 0 |}.

Definition conv_layout {A : Type} (c_in c_out : nat) (c : Conv2d A) : Prop :=
  in_channels c = c_in /\ out_channels c = c_out /\
  kernel_size c = 3 /\ stride c = 2 /\ padding c = PadNum 1.

(** The layout that lines 41-59 ask for, the padding of the three
    convolutions being the number 1. *)
Definition encoder_layout {A : Type} (H W c : nat)
    (self : ObservationalEncoder.t A) : Prop :=
  conv_layout c 16 (ObservationalEncoder.conv1 self) /\
  conv_layout 16 32 (ObservationalEncoder.conv2 self) /\
  conv_layout 32 64 (ObservationalEncoder.conv3 self) /\
  in_features (ObservationalEncoder.fc self) = 64 * (H / 8) * (W / 8) /\
  out_features (ObservationalEncoder.fc self) = 128.

(** A sampler laid out as lines 141-148 lay it out for actions of
    dimension [D] (with the default noise dimension). *)
Definition sampler_layout {A : Type} (D : nat) (self : ActionSampler.t A) : Prop :=
  in_features (ActionSampler.fc1 self) = D + D /\
  out_features (ActionSampler.fc1 self) = 32 /\
  in_features (ActionSampler.fc2 self) = 32 /\
  out_features (ActionSampler.fc2 self) = 32 /\
  in_features (ActionSampler.fc3 self) = 32.

(** One row of actions: zero, one and minus one. *)
Definition signs : Tensor R :=
  {| shape := [1; 3];
     get := fun idx =>
       match nth 1 idx 0 with
       | 0 => 0%R
       | 1 => 1%R
       | _ => (-1)%R
       end |}.

(** The encoder with the convolutions as lines 41-55 ask for them:
    kernel 3x3, stride 2, padding mode 'same'. *)
Definition same_conv (c_in c_out : nat) : Conv2d R :=
  {| in_channels := c_in; out_channels := c_out; kernel_size := 3; stride := 2;
     padding := PadSame;
     cweight := fun _ _ _ _ => 0%R; cbias := fun _ => 1%R |}.

Definition encoder_as_written : ObservationalEncoder.t R :=
  {| ObservationalEncoder.training := true;
     ObservationalEncoder.conv1 := same_conv 3 16;
     ObservationalEncoder.conv2 := same_conv 16 32;
     ObservationalEncoder.conv3 := same_conv 32 64;
     ObservationalEncoder.dropout :=
       {| drop_p := (3 / 10)%R; dropout_training := true |};
     ObservationalEncoder.fc :=
       {| in_features := 64; out_features := 128;
          weight := fun _ _ => 1%R; bias := fun _ => 0%R |} |}.

(** The sampler that lines 129-150 of [ActionSampler(noise_dim=5)]
    build from the zero generator. *)
Definition sampler_noise5 : ActionSampler.t R :=
  {| ActionSampler.training := true;
     ActionSampler.action_dim := 3;
     ActionSampler.state_dim := 3;
     ActionSampler.noise_dim := 5;
     ActionSampler.fc1 := zero_linear 8 32;
     ActionSampler.fc2 := zero_linear 32 32;
     ActionSampler.fc3 := zero_linear 32 3 |}.

(** An estimator over the extended reals, with zero weights. *)
Definition xzero_linear (n_in n_out : nat) : Linear xreal :=
  {| in_features := n_in; out_features := n_out;
     weight := fun _ _ => Fin 0; bias := fun _ => Fin 0 |}.

Definition xestimator0 : ObservationalLikelihoodEstimator.t xreal :=
  {| ObservationalLikelihoodEstimator.training := true;
     ObservationalLikelihoodEstimator.min_observation_likelihood :=
       ObservationalLikelihoodEstimator.default_min_observation_likelihood;
     ObservationalLikelihoodEstimator.fc1 := xzero_linear 128 128;
     ObservationalLikelihoodEstimator.fc2 := xzero_linear 128 128;
     ObservationalLikelihoodEstimator.fc3 := xzero_linear 128 1 |}.

(** One row of 128 features, all one but the sixth, which is NaN. *)
Definition nan_features : Tensor xreal :=
  {| shape := [1; 128];
     get := fun idx => if nth 1 idx 0 =? 5 then NaN else Fin 1 |}.

(** One sample, two particles, three dimensions; the first particle is
    NaN in every dimension. *)
Definition nan_delta : Tensor xreal :=
  {| shape := [1; 2; 3];
     get := fun idx => if nth 1 idx 0 =? 0 then NaN else Fin 1 |}.

(** The smallest positive binary32 number, 2^-149. *)
Definition smallest_binary32 : R := (/ IZR (2 ^ 149))%R.









(** * Properties *)

Unset Implicit Arguments.

Ltac run_monad :=
  unfold bind, lift, ret, Ok, Raise in *; simpl in *.

(** ** The two scalar models agree on finite values *)

Lemma binary32_overflow_large : (1 < binary32_overflow)%R.
Proof. unfold binary32_overflow. apply IZR_lt. reflexivity. Qed.

Lemma xround_in_range :
  forall r : R, (Rabs r < binary32_overflow)%R -> xround r = Fin r.
Proof.
  intros r Hr. unfold xround.
  apply Rabs_def2 in Hr. destruct Hr as (Hhi & Hlo).
  destruct (Rle_dec binary32_overflow r) as [H1 | _]; [exfalso; lra |].
  destruct (Rle_dec r (- binary32_overflow)) as [H2 | _]; [exfalso; lra |].
  reflexivity.
Qed.

Lemma xround_overflow :
  forall r : R, (binary32_overflow <= Rabs r)%R -> is_finite (xround r) = false.
Proof.
  intros r Hr. unfold xround.
  destruct (Rle_dec binary32_overflow r) as [_ | H1]; [reflexivity |].
  destruct (Rle_dec r (- binary32_overflow)) as [_ | H2]; [reflexivity |].
  exfalso. pose proof binary32_overflow_large as HT.
  unfold Rabs in Hr. destruct (Rcase_abs r); lra.
Qed.

Lemma Fin_commutes :
  forall a b : R,
    ((Rabs (a + b) < binary32_overflow)%R -> sadd (Fin a) (Fin b) = Fin (sadd a b)) /\
    ((Rabs (a - b) < binary32_overflow)%R -> ssub (Fin a) (Fin b) = Fin (ssub a b)) /\
    ((Rabs (a * b) < binary32_overflow)%R -> smul (Fin a) (Fin b) = Fin (smul a b)) /\
    srelu (Fin a) = Fin (srelu a) /\
    ssigmoid (Fin a) = Fin (ssigmoid a) /\
    sltb (Fin a) (Fin b) = sltb a b /\
    (b <> 0%R -> (Rabs (a / b) < binary32_overflow)%R ->
     sdiv (Fin a) (Fin b) = Fin (sdiv a b)).
Proof.
  intros a b. repeat split.
  - intros Hr. simpl. apply xround_in_range. exact Hr.
  - intros Hr. simpl. unfold xsub, xneg, xadd. apply xround_in_range. exact Hr.
  - intros Hr. simpl. apply xround_in_range. exact Hr.
  - intros Hb Hr. simpl. unfold xdiv.
    destruct (Req_dec_T b 0) as [Hz | _]; [contradiction |].
    apply xround_in_range. exact Hr.
Qed.

(** ** The container *)

(** C8: constructing DPF_SE2 succeeds, consumes nothing from the
    generator and leaves an instance with no sub-module: its only
    attribute is the training flag set by the base-class constructor,
    and the class defines no method besides its constructor. *)
Theorem DPF_SE2_is_unwired :
  forall (A : Type) (g : Generator A),
    exists self : DPF_SE2.t,
      DPF_SE2.init g = (Ok self, g) /\
      children (attributes (DPF_SE2.instance (A := A) self)) = [] /\
      attributes (DPF_SE2.instance (A := A) self) = [("training", PyBool true)] /\
      class_methods (DPF_SE2.instance (A := A) self) = ["__init__"].
Proof.
  intros A g. exists {| DPF_SE2.training := true |}.
  repeat split; reflexivity.
Qed.

(** ** Construction of the three networks *)

Lemma initializer_is_a_global :
  forall A : Type,
    lookup_global (A := A) "init_xavier_normal" = Some (PyFunction "init_xavier_normal").
Proof. intros A. reflexivity. Qed.

Lemma encoder_has_no_initializer :
  forall (A : Type) (self : ObservationalEncoder.t A),
    getattr (ObservationalEncoder.instance self) "init_xavier_normal"
    = Raise (AttributeError "ObservationalEncoder" "init_xavier_normal").
Proof. intros A self. reflexivity. Qed.

Lemma estimator_has_no_initializer :
  forall (A : Type) (self : ObservationalLikelihoodEstimator.t A),
    getattr (ObservationalLikelihoodEstimator.instance self) "init_xavier_normal"
    = Raise (AttributeError "ObservationalLikelihoodEstimator" "init_xavier_normal").
Proof. intros A self. reflexivity. Qed.

Lemma sampler_has_no_initializer :
  forall (A : Type) (self : ActionSampler.t A),
    getattr (ActionSampler.instance self) "init_xavier_normal"
    = Raise (AttributeError "ActionSampler" "init_xavier_normal").
Proof. intros A self. reflexivity. Qed.

Lemma Linear_new_returns :
  forall (A : Type) (n_in n_out : nat) (g : Generator A),
    exists l, Linear_new n_in n_out g = (Ok l, advance g (n_out * n_in + n_out)) /\
              in_features l = n_in /\ out_features l = n_out.
Proof. intros. eexists. split; [reflexivity | split; reflexivity]. Qed.

(** ** The layouts are those of the constructors *)

Lemma estimator_layers_layout :
  forall (A : Type) (S : Scalar A) (n : nat) (m : A) (g : Generator A),
    exists self g',
      ObservationalLikelihoodEstimator.layers n m g = (Ok self, g') /\
      estimator_layout n self /\
      ObservationalLikelihoodEstimator.min_observation_likelihood self = m.
Proof.
  intros. unfold ObservationalLikelihoodEstimator.layers, bind, ret, Linear_new, Ok.
  cbv beta iota zeta. do 2 eexists. split; [reflexivity |].
  split; [repeat split | reflexivity].
Qed.

Lemma sampler_layers_layout :
  forall (A : Type) (S : Scalar A) (action_dim state_dim : nat) (g : Generator A),
    exists self g',
      ActionSampler.layers action_dim state_dim None g = (Ok self, g') /\
      sampler_layout action_dim self /\
      out_features (ActionSampler.fc3 self) = state_dim.
Proof.
  intros. unfold ActionSampler.layers, bind, ret, Linear_new, Ok.
  cbv beta iota zeta. do 2 eexists. split; [reflexivity |].
  split; [repeat split | reflexivity].
Qed.

(** The concrete sampler and estimator are what the constructors' layer
    code builds from the zero generator. *)
Lemma sampler0_is_built :
  fst (ActionSampler.layers 3 3 None zero_generator) = Ok sampler0.
Proof. reflexivity. Qed.

Lemma estimator0_is_built :
  fst (ObservationalLikelihoodEstimator.layers
         ObservationalLikelihoodEstimator.default_in_features
         ObservationalLikelihoodEstimator.default_min_observation_likelihood
         zero_generator)
  = Ok estimator0.
Proof. reflexivity. Qed.

(** C3: whatever the arguments, [ObservationalEncoder(H, W, c, rate)]
    raises: the first convolution is asked for padding 'same' with
    stride 2, which nn.Conv2d refuses, so no encoder is constructed and
    none can be applied to a batch.  Had the layers been built, line 63
    would raise on any instance. *)
Theorem ObservationalEncoder_init_raises :
  forall (A : Type) (S : Scalar A) (xavier : Initializer A)
         (H W in_channels : nat) (dropout_rate : A) (g : Generator A),
    ObservationalEncoder.init xavier H W in_channels dropout_rate g
    = (Raise (ValueError "padding='same' is not supported for strided convolutions"), g)
    /\
    (forall (self : ObservationalEncoder.t A) (g' : Generator A),
       ObservationalEncoder.initialize xavier self g'
       = (Raise (AttributeError "ObservationalEncoder" "init_xavier_normal"), g')).
Proof.
  intros. split.
  - reflexivity.
  - intros self g'. reflexivity.
Qed.

(** C6: none of the three constructors completes.  The estimator and
    the sampler build their layers and then raise AttributeError at
    [self.apply(self.init_xavier_normal)]: the initialiser is a name of
    the module namespace, not an attribute of the instance.  The encoder
    raises before it gets there.  No initialiser is ever applied. *)
Theorem constructors_raise :
  forall (A : Type) (S : Scalar A) (xavier : Initializer A) (g : Generator A),
    (forall (in_features : nat) (min_observation_likelihood : A),
       fst (ObservationalLikelihoodEstimator.init xavier in_features
              min_observation_likelihood g)
       = Raise (AttributeError "ObservationalLikelihoodEstimator" "init_xavier_normal"))
    /\
    (forall (action_dim state_dim : nat) (noise_dim : option nat),
       fst (ActionSampler.init xavier action_dim state_dim noise_dim g)
       = Raise (AttributeError "ActionSampler" "init_xavier_normal"))
    /\
    (forall (H W in_channels : nat) (dropout_rate : A),
       is_error (fst (ObservationalEncoder.init xavier H W in_channels dropout_rate g))
       = true)
    /\
    lookup_global (A := A) "init_xavier_normal" = Some (PyFunction "init_xavier_normal").
Proof.
  intros. repeat split; intros; reflexivity.
Qed.

(** ** The action sampler *)

(** What the noise routine does: it runs the three layers and drops
    the result. *)
Lemma generate_motion_noise_spec :
  forall (A : Type) (S : Scalar A) (self : ActionSampler.t A) (x : Tensor A)
         (g : Generator A),
    ActionSampler.generate_motion_noise self x g =
    match Linear_forward (ActionSampler.fc1 self) x with
    | inl e => (inl e, g)
    | inr x1 =>
        match Linear_forward (ActionSampler.fc2 self) (ReLU_forward x1) with
        | inl e => (inl e, g)
        | inr x2 =>
            match Linear_forward (ActionSampler.fc3 self) (ReLU_forward x2) with
            | inl e => (inl e, g)
            | inr _ => (Ok PyNone, g)
            end
        end
    end.
Proof.
  intros. unfold ActionSampler.generate_motion_noise. run_monad.
  destruct (Linear_forward (ActionSampler.fc1 self) x) as [e | x1]; [reflexivity |].
  destruct (Linear_forward (ActionSampler.fc2 self) (ReLU_forward x1)) as [e | x2];
    [reflexivity |].
  destruct (Linear_forward (ActionSampler.fc3 self) (ReLU_forward x2)) as [e | x3];
    reflexivity.
Qed.


(** ** The likelihood estimator *)

Lemma Rsigmoid_bounds : forall r : R, (0 < Rsigmoid r < 1)%R.
Proof.
  intros r. unfold Rsigmoid.
  pose proof (exp_pos (- r)) as Hexp.
  split.
  - apply Rinv_0_lt_compat. lra.
  - rewrite <- Rinv_1 at 2. apply Rinv_lt_contravar; lra.
Qed.

Lemma Linear_forward_batch :
  forall (A : Type) (S : Scalar A) (l : Linear A) (x : Tensor A) (B : nat),
    shape x = [B; in_features l] ->
    exists y, Linear_forward l x = Ok y /\ shape y = [B; out_features l].
Proof.
  intros A S l x B Hx. unfold Linear_forward. rewrite Hx. simpl.
  rewrite Nat.eqb_refl. eexists. split; reflexivity.
Qed.

Lemma rescaled_in_range :
  forall m v : R, (m <= 1 -> 0 < v < 1 -> m <= v * (1 - m) + m <= 1)%R.
Proof. intros m v Hm Hv. split; nra. Qed.

Lemma estimator_forward_value :
  forall (self : ObservationalLikelihoodEstimator.t R) (x : Tensor R) (n B : nat)
         (g : Generator R),
    estimator_layout n self ->
    shape x = [B; n] ->
    exists (y z : Tensor R),
      ObservationalLikelihoodEstimator.forward self x g = (Ok y, g) /\
      shape y = [B; 1] /\
      forall idx,
        get y idx =
        (Rsigmoid (get z idx)
         * (1 - ObservationalLikelihoodEstimator.min_observation_likelihood self)
         + ObservationalLikelihoodEstimator.min_observation_likelihood self)%R.
Proof.
  intros self x n B g (H1 & H2 & H3 & H4 & H5 & H6) Hx.
  unfold ObservationalLikelihoodEstimator.forward. run_monad.
  destruct (@Linear_forward_batch R _ (ObservationalLikelihoodEstimator.fc1 self) x B)
    as (x1 & E1 & S1); [congruence |].
  unfold Ok in E1. rewrite E1.
  destruct (@Linear_forward_batch R _ (ObservationalLikelihoodEstimator.fc2 self)
              (ReLU_forward x1) B) as (x2 & E2 & S2);
    [simpl; congruence |].
  unfold Ok in E2. rewrite E2.
  destruct (@Linear_forward_batch R _ (ObservationalLikelihoodEstimator.fc3 self)
              (ReLU_forward x2) B) as (x3 & E3 & S3);
    [simpl; congruence |].
  unfold Ok in E3. rewrite E3.
  eexists. exists x3. split; [reflexivity |]. split.
  - simpl. congruence.
  - intros idx. reflexivity.
Qed.

(** In exact arithmetic: an estimator laid out as the constructor lays
    it out, with a floor [min_observation_likelihood <= 1], maps every batch of shape
    (B, 128) to a tensor of shape (B, 1) whose entries are the sigmoid
    output [s] rescaled as [s * (1 - floor) + floor] and lie between the
    floor and 1; with the default floor 0.004 every entry is at least
    0.004 and none is zero.  (Exact arithmetic.) *)
Lemma likelihood_in_range :
  forall (self : ObservationalLikelihoodEstimator.t R) (x : Tensor R) (B : nat)
         (g : Generator R),
    estimator_layout 128 self ->
    shape x = [B; 128] ->
    (ObservationalLikelihoodEstimator.min_observation_likelihood self <= 1)%R ->
    exists y : Tensor R,
      ObservationalLikelihoodEstimator.forward self x g = (Ok y, g) /\
      shape y = [B; 1] /\
      (forall idx,
         exists s : R,
           (0 < s < 1)%R /\
           get y idx =
           (s * (1 - ObservationalLikelihoodEstimator.min_observation_likelihood self)
            + ObservationalLikelihoodEstimator.min_observation_likelihood self)%R) /\
      (forall idx,
         (ObservationalLikelihoodEstimator.min_observation_likelihood self
          <= get y idx <= 1)%R) /\
      (ObservationalLikelihoodEstimator.min_observation_likelihood self
       = ObservationalLikelihoodEstimator.default_min_observation_likelihood ->
       forall idx, (4 / 1000 <= get y idx)%R /\ get y idx <> 0%R).
Proof.
  intros self x B g Hlay Hx Hm.
  destruct (estimator_forward_value self x 128 B g Hlay Hx) as (y & z & Hy & Hs & Hv).
  exists y. split; [exact Hy |]. split; [exact Hs |].
  assert (Hr : forall idx,
             (ObservationalLikelihoodEstimator.min_observation_likelihood self
              <= get y idx <= 1)%R).
  { intros idx. rewrite Hv. apply rescaled_in_range; [exact Hm | apply Rsigmoid_bounds]. }
  split; [| split].
  - intros idx. exists (Rsigmoid (get z idx)). split; [apply Rsigmoid_bounds | apply Hv].
  - exact Hr.
  - intros Hd idx. specialize (Hr idx). rewrite Hd in Hr.
    unfold ObservationalLikelihoodEstimator.default_min_observation_likelihood in Hr.
    cbv [sdiv sof_nat Scalar_R] in Hr. rewrite !INR_IZR_INZ in Hr. simpl in Hr. split; lra.
Qed.

Lemma likelihood_in_range_witness :
  exists y : Tensor R,
    ObservationalLikelihoodEstimator.forward estimator0 (full [2; 128] 1%R) zero_generator
    = (Ok y, zero_generator) /\
    shape y = [2; 1] /\
    forall idx, (4 / 1000 <= get y idx <= 1)%R.
Proof.
  destruct (likelihood_in_range estimator0 (full [2; 128] 1%R) 2 zero_generator)
    as (y & Hy & Hs & _ & Hr & Hd).
  - repeat split; reflexivity.
  - reflexivity.
  - cbv [estimator0 ObservationalLikelihoodEstimator.min_observation_likelihood
         ObservationalLikelihoodEstimator.default_min_observation_likelihood
         sdiv sof_nat Scalar_R].
    rewrite !INR_IZR_INZ. simpl. lra.
  - exists y. split; [exact Hy |]. split; [exact Hs |].
    intros idx. split; [apply (Hd eq_refl idx) | apply (Hr idx)].
Defined.

(** ** The encoder *)

Lemma encoder_forward_spec :
  forall (A : Type) (S : Scalar A) (self : ObservationalEncoder.t A) (x : Tensor A)
         (g : Generator A),
    ObservationalEncoder.forward self x g =
    match Conv2d_forward (ObservationalEncoder.conv1 self) x with
    | inl e => (inl e, g)
    | inr x1 =>
      match Conv2d_forward (ObservationalEncoder.conv2 self) (ReLU_forward x1) with
      | inl e => (inl e, g)
      | inr x2 =>
        match Conv2d_forward (ObservationalEncoder.conv3 self) (ReLU_forward x2) with
        | inl e => (inl e, g)
        | inr x3 =>
          match Dropout_forward (ObservationalEncoder.dropout self) (ReLU_forward x3) g with
          | (inl e, g') => (inl e, g')
          | (inr x4, g') =>
            match Flatten_forward x4 with
            | inl e => (inl e, g')
            | inr x5 =>
              match Linear_forward (ObservationalEncoder.fc self) x5 with
              | inl e => (inl e, g')
              | inr x6 => (Ok (ReLU_forward x6), g')
              end
            end
          end
        end
      end
    end.
Proof.
  intros. unfold ObservationalEncoder.forward. run_monad.
  destruct (Conv2d_forward (ObservationalEncoder.conv1 self) x) as [e | x1];
    [reflexivity |].
  destruct (Conv2d_forward (ObservationalEncoder.conv2 self) _) as [e | x2];
    [reflexivity |].
  destruct (Conv2d_forward (ObservationalEncoder.conv3 self) _) as [e | x3];
    [reflexivity |].
  destruct (Dropout_forward (ObservationalEncoder.dropout self) _ g) as [[e | x4] g'];
    [reflexivity |].
  destruct (Flatten_forward x4) as [e | x5]; [reflexivity |].
  destruct (Linear_forward (ObservationalEncoder.fc self) x5) as [e | x6]; reflexivity.
Qed.

(** In exact arithmetic: whatever the encoder, the batch and the
    generator, a feature vector that [forward] returns has only nonnegative entries: it is
    the rectified output of the fully-connected layer.  (Exact
    arithmetic.) *)
Lemma encoder_features_nonnegative :
  forall (self : ObservationalEncoder.t R) (x y : Tensor R) (g g' : Generator R),
    ObservationalEncoder.forward self x g = (Ok y, g') ->
    (exists z : Tensor R, y = ReLU_forward z) /\
    forall idx, (0 <= get y idx)%R.
Proof.
  intros self x y g g' Hf. rewrite encoder_forward_spec in Hf.
  destruct (Conv2d_forward (ObservationalEncoder.conv1 self) x) as [e | x1];
    [discriminate |].
  destruct (Conv2d_forward (ObservationalEncoder.conv2 self) _) as [e | x2];
    [discriminate |].
  destruct (Conv2d_forward (ObservationalEncoder.conv3 self) _) as [e | x3];
    [discriminate |].
  destruct (Dropout_forward (ObservationalEncoder.dropout self) _ g) as [[e | x4] g1];
    [discriminate |].
  destruct (Flatten_forward x4) as [e | x5]; [discriminate |].
  destruct (Linear_forward (ObservationalEncoder.fc self) x5) as [e | x6];
    [discriminate |].
  unfold Ok in Hf. injection Hf as Hy Hg. subst y. split.
  - exists x6. reflexivity.
  - intros idx. simpl. apply Rmax_l.
Qed.

Lemma half_size : forall n : nat, 0 < n -> n mod 2 = 0 -> (n + 1 + 1 - 3) / 2 + 1 = n / 2.
Proof.
  intros n Hpos Hev.
  pose proof (Nat.div_mod_eq n 2) as Hn. rewrite Hev in Hn.
  set (k := n / 2) in *.
  replace (n + 1 + 1 - 3) with (1 + (k - 1) * 2) by lia.
  rewrite Nat.div_add by lia. simpl. lia.
Qed.

Lemma Conv2d_forward_strided :
  forall (A : Type) (S : Scalar A) (c : Conv2d A) (x : Tensor A)
         (c_in c_out B h w : nat),
    conv_layout c_in c_out c ->
    shape x = [B; c_in; h; w] ->
    0 < h -> h mod 2 = 0 -> 0 < w -> w mod 2 = 0 ->
    exists y, Conv2d_forward c x = Ok y /\ shape y = [B; c_out; h / 2; w / 2].
Proof.
  intros A S c x c_in c_out B h w (Hi & Ho & Hk & Hs & Hp) Hx Hh Hh2 Hw Hw2.
  unfold Conv2d_forward, conv_checks, pad_amounts, conv_out_size.
  rewrite Hx, Hp, Hi, Hk, Hs, Ho. rewrite Nat.eqb_refl.
  unfold Ok, Raise. cbn [negb fst snd].
  replace (2 =? 0) with false by reflexivity.
  replace (h + 1 + 1 <? 3) with false by (symmetry; apply Nat.ltb_ge; lia).
  replace (w + 1 + 1 <? 3) with false by (symmetry; apply Nat.ltb_ge; lia).
  cbn [orb fst snd]. eexists. split; [reflexivity |].
  cbn [shape]. rewrite !half_size by assumption. reflexivity.
Qed.

Lemma Dropout_forward_shape :
  forall (A : Type) (S : Scalar A) (d : Dropout A) (x : Tensor A) (g : Generator A),
    exists y g', Dropout_forward d x g = (Ok y, g') /\ shape y = shape x.
Proof.
  intros. unfold Dropout_forward. destruct (dropout_training d).
  - do 2 eexists. split; reflexivity.
  - do 2 eexists. split; reflexivity.
Qed.

(** With the three convolutions padded by the number 1, an encoder laid
    out for H x W images with H and W positive multiples of 8 maps a
    batch (B, c, H, W) to features (B, 128), in either mode; the feature
    maps are H/8 x W/8 and the fully-connected layer reads
    64 * (H/8) * (W/8) values. *)
Lemma encoder_forward_shape :
  forall (A : Type) (S : Scalar A) (self : ObservationalEncoder.t A) (x : Tensor A)
         (B c h w : nat) (g : Generator A),
    encoder_layout (8 * h) (8 * w) c self ->
    shape x = [B; c; 8 * h; 8 * w] ->
    0 < h -> 0 < w ->
    exists y g', ObservationalEncoder.forward self x g = (Ok y, g') /\
                 shape y = [B; 128].
Proof.
  intros A S self x B c h w g (L1 & L2 & L3 & Hin & Hout) Hx Hh Hw.
  rewrite encoder_forward_spec.
  destruct (Conv2d_forward_strided A S _ x c 16 B (8 * h) (8 * w) L1 Hx)
    as (x1 & E1 & S1); try lia;
    try (rewrite Nat.mul_comm; replace 8 with (4 * 2) by reflexivity;
         rewrite Nat.mul_assoc; apply Nat.Div0.mod_mul).
  unfold Ok in E1. rewrite E1.
  replace (8 * h / 2) with (4 * h) in S1
    by (apply Nat.div_unique_exact; lia).
  replace (8 * w / 2) with (4 * w) in S1
    by (apply Nat.div_unique_exact; lia).
  destruct (Conv2d_forward_strided A S _ (ReLU_forward x1) 16 32 B (4 * h) (4 * w) L2 S1)
    as (x2 & E2 & S2); try lia;
    try (rewrite Nat.mul_comm; replace 4 with (2 * 2) by reflexivity;
         rewrite Nat.mul_assoc; apply Nat.Div0.mod_mul).
  unfold Ok in E2. rewrite E2.
  replace (4 * h / 2) with (2 * h) in S2
    by (apply Nat.div_unique_exact; lia).
  replace (4 * w / 2) with (2 * w) in S2
    by (apply Nat.div_unique_exact; lia).
  destruct (Conv2d_forward_strided A S _ (ReLU_forward x2) 32 64 B (2 * h) (2 * w) L3 S2)
    as (x3 & E3 & S3); try lia;
    try (rewrite Nat.mul_comm; apply Nat.Div0.mod_mul).
  unfold Ok in E3. rewrite E3.
  replace (2 * h / 2) with h in S3
    by (apply Nat.div_unique_exact; lia).
  replace (2 * w / 2) with w in S3
    by (apply Nat.div_unique_exact; lia).
  destruct (Dropout_forward_shape A S (ObservationalEncoder.dropout self)
              (ReLU_forward x3) g) as (x4 & g' & E4 & S4).
  rewrite E4. unfold Ok. cbv beta iota.
  cbn [ReLU_forward tmap shape] in S4. rewrite S3 in S4.
  unfold Flatten_forward. rewrite S4. unfold Ok. cbv beta iota.
  unfold Linear_forward. cbn [shape rev app].
  replace (numel [64; h; w] =? in_features (ObservationalEncoder.fc self)) with true.
  - do 2 eexists. split; [reflexivity |]. cbn [shape rev app]. rewrite Hout. reflexivity.
  - symmetry. apply Nat.eqb_eq. rewrite Hin.
    replace (8 * h / 8) with h by (apply Nat.div_unique_exact; lia).
    replace (8 * w / 8) with w by (apply Nat.div_unique_exact; lia).
    unfold numel, fold_right. lia.
Qed.

Lemma ssum_ext :
  forall (A : Type) (S : Scalar A) (n : nat) (f h : nat -> A),
    (forall k, k < n -> f k = h k) -> ssum n f = ssum n h.
Proof.
  intros A S n f h. induction n as [| n IH]; intros Hfh; simpl.
  - reflexivity.
  - rewrite IH by (intros k Hk; apply Hfh; lia). rewrite Hfh by lia. reflexivity.
Qed.

Lemma ssum_const : forall (n : nat) (c : R), ssum n (fun _ => c) = (INR n * c)%R.
Proof.
  intros n c. induction n as [| n IH].
  - simpl. lra.
  - rewrite S_INR. cbn [ssum]. rewrite IH. simpl. lra.
Qed.

Lemma conv_at_zero_weights :
  forall (c : Conv2d R) (pl h w : nat) (rd : nat -> nat -> nat -> R) (o i j : nat),
    (forall o' ch u v, cweight c o' ch u v = 0%R) ->
    conv_at c pl h w rd o i j = cbias c o.
Proof.
  intros c pl h w rd o i j Hz. unfold conv_at.
  rewrite (ssum_ext R _ _ _ (fun _ => 0%R)).
  - rewrite ssum_const. simpl. lra.
  - intros ch _. rewrite (ssum_ext R _ _ _ (fun _ => 0%R)).
    + rewrite ssum_const. lra.
    + intros u _. rewrite (ssum_ext R _ _ _ (fun _ => 0%R)).
      * rewrite ssum_const. lra.
      * intros v _. rewrite Hz. simpl. lra.
Qed.

Lemma Conv2d_forward_zero_weights :
  forall (c : Conv2d R) (x y : Tensor R) (b : R),
    (forall o ch u v, cweight c o ch u v = 0%R) ->
    (forall o, cbias c o = b) ->
    Conv2d_forward c x = Ok y ->
    forall idx, get y idx = b.
Proof.
  intros c x y b Hz Hb Hy idx. unfold Conv2d_forward in Hy.
  destruct (shape x) as [| n [| ch [| h [| w [| ? ?]]]]]; try discriminate.
  - destruct (conv_checks c n ch h) as [e | pads]; [discriminate |].
    unfold Ok in Hy. injection Hy as <-.
    exact (eq_trans (conv_at_zero_weights c (fst pads) _ _
                       (fun ch' y' x' => get x [ch'; y'; x']) _ _ _ Hz) (Hb _)).
  - destruct (conv_checks c ch h w) as [e | pads]; [discriminate |].
    unfold Ok in Hy. injection Hy as <-.
    exact (eq_trans (conv_at_zero_weights c (fst pads) _ _
                       (fun ch' y' x' => get x [nth 0 idx 0; ch'; y'; x']) _ _ _ Hz)
                    (Hb _)).
Qed.

Lemma Linear_forward_get :
  forall (A : Type) (S : Scalar A) (l : Linear A) (x y : Tensor A),
    Linear_forward l x = inr y ->
    forall idx,
      get y idx =
      sadd (ssum (in_features l)
                 (fun k => smul (get x (removelast idx ++ [k]))
                                (weight l (last idx 0) k)))
           (bias l (last idx 0)).
Proof.
  intros A S l x y Hy idx. unfold Linear_forward in Hy.
  destruct (rev (shape x)) as [| d r]; [discriminate |].
  destruct (d =? in_features l); [| discriminate].
  unfold Ok in Hy. injection Hy as <-. reflexivity.
Qed.

(** The features that [encoder0] computes from any 8x8 image when the
    generator's uniform draws all equal [u]. *)
Lemma encoder0_features :
  forall (mode : bool) (x y : Tensor R) (g g' : Generator R) (u : R),
    (forall n, uniform g n = u) ->
    ObservationalEncoder.forward (encoder0 mode) x g = (Ok y, g') ->
    forall idx,
      get y idx =
      Rmax 0 (INR 64 * ((if mode
                         then if Rltb u (3 / 10) then 0 else 1 / (1 - 3 / 10)
                         else 1) * 1) + 0)%R.
Proof.
  intros mode x y g g' u Hu Hf idx. rewrite encoder_forward_spec in Hf.
  destruct (Conv2d_forward (ObservationalEncoder.conv1 (encoder0 mode)) x)
    as [e | x1]; [discriminate |].
  destruct (Conv2d_forward (ObservationalEncoder.conv2 (encoder0 mode)) _)
    as [e | x2]; [discriminate |].
  destruct (Conv2d_forward (ObservationalEncoder.conv3 (encoder0 mode)) _)
    as [e | x3] eqn:E3; [discriminate |].
  assert (H3 : forall i, get x3 i = 1%R).
  { intros i. apply (Conv2d_forward_zero_weights _ _ _ 1%R) with (3 := E3);
      intros; reflexivity. }
  destruct (Dropout_forward (ObservationalEncoder.dropout (encoder0 mode)) _ g)
    as [[e | x4] g1] eqn:E4; [discriminate |].
  assert (H4 : forall i,
             get x4 i = if mode
                        then if Rltb u (3 / 10) then 0%R else (1 / (1 - 3 / 10))%R
                        else 1%R).
  { intros i. unfold Dropout_forward in E4. cbn [encoder0 ObservationalEncoder.dropout
      dropout_training drop_p] in E4.
    destruct mode.
    - unfold Ok in E4. injection E4 as <- _. cbn [get shape ReLU_forward tmap].
      rewrite Hu, H3. simpl. destruct (Rltb u (3 / 10)); [reflexivity |].
      rewrite Rmax_right by lra. reflexivity.
    - unfold ret, Ok in E4. injection E4 as <- _. cbn [get ReLU_forward tmap].
      rewrite H3. simpl. apply Rmax_right. lra. }
  destruct (Flatten_forward x4) as [e | x5] eqn:E5; [discriminate |].
  assert (H5 : forall i, exists i', get x5 i = get x4 i').
  { intros i. unfold Flatten_forward in E5.
    destruct (shape x4) as [| n [| d r]]; try discriminate.
    unfold Ok in E5. injection E5 as <-. cbn [get]. eexists. reflexivity. }
  destruct (Linear_forward (ObservationalEncoder.fc (encoder0 mode)) x5)
    as [e | x6] eqn:E6; [discriminate |].
  unfold Ok in Hf. injection Hf as <- _.
  cbn [ReLU_forward tmap get].
  rewrite (Linear_forward_get R _ _ _ _ E6).
  rewrite <- ssum_const.
  apply (f_equal (Rmax 0)). apply (f_equal2 Rplus); [| reflexivity].
  apply (ssum_ext R _ 64). intros k _.
  destruct (H5 (removelast idx ++ [k])) as (i' & ->). rewrite H4. reflexivity.
Qed.

Lemma encoder_features_nonnegative_witness :
  exists (y : Tensor R) (g' : Generator R),
    ObservationalEncoder.forward (encoder0 true) (full [1; 3; 8; 8] 1%R) one_generator
    = (Ok y, g') /\
    forall idx, (0 <= get y idx)%R.
Proof.
  destruct (encoder_forward_shape R _ (encoder0 true) (full [1; 3; 8; 8] 1%R)
              1 3 1 1 one_generator) as (y & g' & Hf & _).
  - repeat split; reflexivity.
  - reflexivity.
  - lia.
  - lia.
  - exists y, g'. split; [exact Hf |].
    exact (proj2 (encoder_features_nonnegative _ _ _ _ _ Hf)).
Defined.

(** C9: the estimator's [forward] neither reads the training flag nor
    touches the generator: for fixed weights and input, two calls give
    the same result whatever the mode and whatever the state of the
    generator, and they leave the generator as it was.  The encoder in
    training mode is different: the same encoder on the same batch
    gives different features under two states of the generator. *)
Theorem estimator_forward_deterministic :
  (forall (A : Type) (S : Scalar A) (self : ObservationalLikelihoodEstimator.t A)
          (x : Tensor A) (mode1 mode2 : bool) (g1 g2 : Generator A),
     fst (ObservationalLikelihoodEstimator.forward
            (ObservationalLikelihoodEstimator.train mode1 self) x g1)
     = fst (ObservationalLikelihoodEstimator.forward
              (ObservationalLikelihoodEstimator.train mode2 self) x g2)
     /\
     snd (ObservationalLikelihoodEstimator.forward
            (ObservationalLikelihoodEstimator.train mode1 self) x g1) = g1)
  /\
  (exists (x y1 y2 : Tensor R) (h1 h2 : Generator R) (idx : list nat),
     ObservationalEncoder.forward
       (ObservationalEncoder.train true (encoder0 false)) x zero_generator = (Ok y1, h1) /\
     ObservationalEncoder.forward
       (ObservationalEncoder.train true (encoder0 false)) x one_generator = (Ok y2, h2) /\
     get y1 idx <> get y2 idx).
Proof.
  split.
  - intros A S self x mode1 mode2 g1 g2.
    unfold ObservationalLikelihoodEstimator.forward. run_monad.
    destruct (Linear_forward (ObservationalLikelihoodEstimator.fc1 self) x)
      as [e | x1]; [split; reflexivity |].
    destruct (Linear_forward (ObservationalLikelihoodEstimator.fc2 self) _)
      as [e | x2]; [split; reflexivity |].
    destruct (Linear_forward (ObservationalLikelihoodEstimator.fc3 self) _)
      as [e | x3]; split; reflexivity.
  - change (ObservationalEncoder.train true (encoder0 false)) with (encoder0 true).
    destruct (encoder_forward_shape R _ (encoder0 true) (full [1; 3; 8; 8] 1%R)
                1 3 1 1 zero_generator) as (y1 & h1 & Hy1 & _);
      [repeat split; reflexivity | reflexivity | lia | lia |].
    destruct (encoder_forward_shape R _ (encoder0 true) (full [1; 3; 8; 8] 1%R)
                1 3 1 1 one_generator) as (y2 & h2 & Hy2 & _);
      [repeat split; reflexivity | reflexivity | lia | lia |].
    exists (full [1; 3; 8; 8] 1%R), y1, y2, h1, h2, [0; 0].
    split; [exact Hy1 |]. split; [exact Hy2 |].
    rewrite (encoder0_features true _ _ zero_generator _ 0%R (fun _ => eq_refl) Hy1).
    rewrite (encoder0_features true _ _ one_generator _ 1%R (fun _ => eq_refl) Hy2).
    unfold Rltb.
    destruct (Rlt_dec 0 (3 / 10)) as [_ | Hn]; [| exfalso; apply Hn; lra].
    destruct (Rlt_dec 1 (3 / 10)) as [Hn | _]; [exfalso; lra |].
    rewrite INR_IZR_INZ. simpl Z.of_nat.
    rewrite Rmax_left by lra. rewrite Rmax_right by lra. lra.
Qed.

(** ** The steps of the sampler's forward pass *)

Lemma broadcast_column :
  forall B D : nat, broadcast_shapes [B; D] [B; 1] = Some [B; D].
Proof.
  intros B D. unfold broadcast_shapes. cbn [rev app broadcast_rev].
  rewrite Nat.eqb_refl.
  destruct (D =? 1) eqn:HD; reflexivity.
Qed.

Lemma project_in_range :
  forall B D b i : nat,
    b < B -> i < D -> project [B; D] [b; i] = [b; i].
Proof.
  intros B D b i Hb Hi. unfold project. cbn [List.length Nat.sub skipn combine map fst snd].
  destruct (B =? 1) eqn:HB; destruct (D =? 1) eqn:HD;
    try apply Nat.eqb_eq in HB; try apply Nat.eqb_eq in HD;
    repeat f_equal; lia.
Qed.

Lemma project_column :
  forall B b i : nat, b < B -> project [B; 1] [b; i] = [b; 0].
Proof.
  intros B b i Hb. unfold project. cbn [List.length Nat.sub skipn combine map fst snd].
  rewrite Nat.eqb_refl.
  destruct (B =? 1) eqn:HB; try apply Nat.eqb_eq in HB; repeat f_equal; lia.
Qed.

(** Line 167 on a batch: the division is element by element, each row
    of actions by its own scale, and nothing is checked. *)
Lemma normalize_actions_value :
  forall (A : Type) (S : Scalar A) (actions stds : Tensor A) (B D : nat),
    shape actions = [B; D] ->
    shape stds = [B] ->
    exists t,
      ActionSampler.normalize_actions actions stds = Ok t /\
      shape t = [B; D] /\
      forall b i, b < B -> i < D ->
        get t [b; i] = sdiv (get actions [b; i]) (get stds [b]).
Proof.
  intros A S actions stds B D Ha Hs.
  unfold ActionSampler.normalize_actions, index_colon_none, rank.
  rewrite Hs. cbn [List.length Nat.eqb]. unfold Ok. cbv beta iota.
  unfold tbinop. cbn [shape]. rewrite Ha.
  change (insert_at 1 1 [B]) with [B; 1].
  rewrite broadcast_column.
  eexists. split; [reflexivity |]. split; [reflexivity |].
  intros b i Hb Hi. cbn [get].
  rewrite project_in_range, project_column by assumption. reflexivity.
Qed.

Lemma expand_over_particles_shape :
  forall (A : Type) (S : Scalar A) (t particles : Tensor A) (B D P : nat),
    shape t = [B; D] ->
    nth_error (shape particles) 1 = Some P ->
    exists e,
      ActionSampler.expand_over_particles t particles = Ok e /\
      shape e = [B; P; D] /\
      forall b p i, b < B -> i < D -> get e [b; p; i] = get t [b; i].
Proof.
  intros A S t particles B D P Ht HP.
  unfold ActionSampler.expand_over_particles, unsqueeze1, shape1, rank.
  rewrite Ht, HP. cbn [List.length Nat.eqb]. unfold Ok. cbv beta iota.
  unfold expand_m1_p_m1. cbn [shape]. change (insert_at 1 1 [B; D]) with [B; 1; D].
  cbv beta iota. rewrite Nat.eqb_refl, orb_true_r.
  eexists. split; [reflexivity |]. split; [reflexivity |].
  intros b p i Hb Hi. cbn [get]. unfold project.
  cbn [List.length Nat.sub skipn combine map fst snd].
  rewrite Nat.eqb_refl. unfold remove_at. cbn [firstn skipn app].
  destruct (B =? 1) eqn:HB; destruct (D =? 1) eqn:HD;
    try apply Nat.eqb_eq in HB; try apply Nat.eqb_eq in HD;
    repeat f_equal; lia.
Qed.

Lemma cat_last_shape :
  forall (A : Type) (S : Scalar A) (t1 t2 : Tensor A) (B P D1 D2 : nat),
    shape t1 = [B; P; D1] ->
    shape t2 = [B; P; D2] ->
    exists x,
      cat_last t1 t2 = Ok x /\ shape x = [B; P; D1 + D2] /\
      forall b p i, i < D1 -> get x [b; p; i] = get t1 [b; p; i].
Proof.
  intros A S t1 t2 B P D1 D2 H1 H2. unfold cat_last. rewrite H1, H2.
  cbn [rev app].
  destruct (list_eq_dec Nat.eq_dec [P; B] [P; B]) as [_ | Hn]; [| congruence].
  eexists. split; [reflexivity |]. split; [reflexivity |].
  intros b p i Hi. cbn [get last].
  replace (i <? D1) with true by (symmetry; apply Nat.ltb_lt; exact Hi).
  reflexivity.
Qed.

Lemma Linear_forward_rank3 :
  forall (A : Type) (S : Scalar A) (l : Linear A) (x : Tensor A) (B P : nat),
    shape x = [B; P; in_features l] ->
    exists y, Linear_forward l x = inr y /\ shape y = [B; P; out_features l].
Proof.
  intros A S l x B P Hx. unfold Linear_forward. rewrite Hx. cbn [rev app].
  rewrite Nat.eqb_refl. eexists. split; reflexivity.
Qed.

(** On a well-shaped call every step up to the noise routine succeeds,
    whatever the values, and the call ends at line 183. *)
Lemma forward_reaches_detach :
  forall (A : Type) (S : Scalar A) (self : ActionSampler.t A)
         (actions stds particles : Tensor A) (B D P : nat) (g : Generator A),
    sampler_layout D self ->
    shape actions = [B; D] ->
    shape stds = [B] ->
    nth_error (shape particles) 1 = Some P ->
    ActionSampler.forward self actions stds particles g
    = (Raise (AttributeError "NoneType" "detach"), advance g (numel [B; P; D])).
Proof.
  intros A S self actions stds particles B D P g (L1 & L2 & L3 & L4 & L5) Ha Hs Hp.
  unfold ActionSampler.forward, bind, lift.
  destruct (normalize_actions_value A S actions stds B D Ha Hs) as (t & Et & St & _).
  rewrite Et. unfold Ok. cbv beta iota.
  destruct (expand_over_particles_shape A S t particles B D P St Hp)
    as (e & Ee & Se & _).
  rewrite Ee. unfold Ok. cbv beta iota.
  unfold randn_like at 1. unfold Ok. cbv beta iota. rewrite Se.
  set (r := {| shape := [B; P; D]; get := _ |}).
  destruct (cat_last_shape A S e r B P D D Se eq_refl) as (x & Ex & Sx & _).
  rewrite Ex. unfold Ok. cbv beta iota.
  rewrite generate_motion_noise_spec.
  rewrite <- L1 in Sx.
  destruct (Linear_forward_rank3 A S _ x B P Sx) as (x1 & E1 & S1).
  rewrite E1. rewrite L2, <- L3 in S1.
  destruct (Linear_forward_rank3 A S _ (ReLU_forward x1) B P S1) as (x2 & E2 & S2).
  rewrite E2. rewrite L4, <- L5 in S2.
  destruct (Linear_forward_rank3 A S _ (ReLU_forward x2) B P S2) as (x3 & E3 & S3).
  rewrite E3. reflexivity.
Qed.

(** A nonzero scale does not make the quotient finite: one divided by
    the smallest positive binary32 number overflows to infinity. *)
Lemma normalization_overflows :
  exists t : Tensor xreal,
    ActionSampler.normalize_actions (finite_tensor (full [1; 1] 1%R))
      (finite_tensor (full [1] smallest_binary32)) = Ok t /\
    smallest_binary32 <> 0%R /\
    get t [0; 0] = PInf /\
    is_finite (get t [0; 0]) = false.
Proof.
  destruct (normalize_actions_value xreal _ (finite_tensor (full [1; 1] 1%R))
              (finite_tensor (full [1] smallest_binary32)) 1 1 eq_refl eq_refl)
    as (t & Et & _ & Hv).
  assert (Hpos : (0 < smallest_binary32)%R).
  { unfold smallest_binary32. apply Rinv_0_lt_compat. apply IZR_lt. reflexivity. }
  assert (Hinf : get t [0; 0] = PInf).
  { rewrite (Hv 0 0) by lia. cbn [finite_tensor get sdiv Scalar_xreal full xdiv].
    destruct (Req_dec_T smallest_binary32 0) as [Hz | _]; [exfalso; lra |].
    unfold xround.
    destruct (Rle_dec binary32_overflow (1 / smallest_binary32)) as [_ | Hn];
      [reflexivity |].
    exfalso. apply Hn. unfold smallest_binary32, binary32_overflow, Rdiv.
    rewrite Rmult_1_l, Rinv_inv. apply IZR_le. apply Z.leb_le. reflexivity. }
  exists t. split; [exact Et |]. split; [lra |]. split; [exact Hinf |].
  rewrite Hinf. reflexivity.
Qed.

(** C7 (as amended): line 167 divides without any guard and raises
    nothing on account of the values.  For finite actions (B, D) and
    finite scales (B,) it returns a tensor (B, D): where the scale is
    nonzero the entry is the quotient when the magnitude of the
    quotient is below the binary32 overflow threshold, and is not
    finite when it reaches it; where the scale is zero the entry is
    not finite (NaN for a zero action, an infinity for a nonzero one).
    No later step objects to such values: the call ends where every
    well-shaped call ends, at line 183. *)
Theorem normalization_is_unguarded :
  (forall (actions stds : Tensor R) (B D : nat),
     shape actions = [B; D] ->
     shape stds = [B] ->
     exists t : Tensor xreal,
       ActionSampler.normalize_actions (finite_tensor actions) (finite_tensor stds)
       = Ok t /\
       shape t = [B; D] /\
       forall b i, b < B -> i < D ->
         (get stds [b] <> 0%R ->
          (Rabs (get actions [b; i] / get stds [b]) < binary32_overflow)%R ->
          get t [b; i] = Fin (get actions [b; i] / get stds [b])) /\
         (get stds [b] <> 0%R ->
          (binary32_overflow <= Rabs (get actions [b; i] / get stds [b]))%R ->
          is_finite (get t [b; i]) = false) /\
         (get stds [b] = 0%R -> is_finite (get t [b; i]) = false))
  /\
  (exists t : Tensor xreal,
     ActionSampler.normalize_actions (finite_tensor signs) (finite_tensor (full [1] 0%R))
     = Ok t /\
     get t [0; 0] = NaN /\ get t [0; 1] = PInf /\ get t [0; 2] = NInf /\
     (forall i, i < 3 -> is_finite (get t [0; i]) = false) /\
     forall (self : ActionSampler.t xreal) (particles : Tensor xreal) (P : nat)
            (g : Generator xreal),
       sampler_layout 3 self ->
       nth_error (shape particles) 1 = Some P ->
       ActionSampler.forward self (finite_tensor signs) (finite_tensor (full [1] 0%R))
         particles g
       = (Raise (AttributeError "NoneType" "detach"), advance g (numel [1; P; 3]))).
Proof.
  split.
  - intros actions stds B D Ha Hs.
    destruct (normalize_actions_value xreal _ (finite_tensor actions)
                (finite_tensor stds) B D Ha Hs) as (t & Et & St & Hv).
    exists t. split; [exact Et |]. split; [exact St |].
    intros b i Hb Hi. rewrite (Hv b i Hb Hi). cbn [finite_tensor get sdiv Scalar_xreal xdiv].
    destruct (Req_dec_T (get stds [b]) 0) as [Hz | Hnz].
    + split; [intros Hne; contradiction |]. split; [intros Hne; contradiction |].
      intros _. destruct (Rsign (get actions [b; i])); reflexivity.
    + split; [| split].
      * intros _ Hr. apply xround_in_range. exact Hr.
      * intros _ Hr. apply xround_overflow. exact Hr.
      * intros Hz. contradiction.
  - destruct (normalize_actions_value xreal _ (finite_tensor signs)
                (finite_tensor (full [1] 0%R)) 1 3 eq_refl eq_refl)
      as (t & Et & St & Hv).
    exists t. split; [exact Et |].
    assert (Hdiv : forall a : R, xdiv (Fin a) (Fin 0) = xinf (Rsign a)).
    { intros a. unfold xdiv. destruct (Req_dec_T 0 0) as [_ | Hn]; [reflexivity |].
      exfalso. apply Hn. reflexivity. }
    assert (H0 : get t [0; 0] = NaN).
    { rewrite (Hv 0 0) by lia. cbn [finite_tensor get sdiv Scalar_xreal full signs nth].
      rewrite Hdiv. unfold Rsign.
      destruct (Rlt_dec 0 0) as [Hlt | _]; [exfalso; lra | reflexivity]. }
    assert (H1 : get t [0; 1] = PInf).
    { rewrite (Hv 0 1) by lia. cbn [finite_tensor get sdiv Scalar_xreal full signs nth].
      rewrite Hdiv. unfold Rsign.
      destruct (Rlt_dec 1 0) as [Hlt | _]; [exfalso; lra |].
      destruct (Rlt_dec 0 1) as [_ | Hn]; [reflexivity | exfalso; apply Hn; lra]. }
    assert (H2 : get t [0; 2] = NInf).
    { rewrite (Hv 0 2) by lia. cbn [finite_tensor get sdiv Scalar_xreal full signs nth].
      rewrite Hdiv. unfold Rsign.
      destruct (Rlt_dec (-1) 0) as [_ | Hn]; [reflexivity | exfalso; apply Hn; lra]. }
    split; [exact H0 |]. split; [exact H1 |]. split; [exact H2 |]. split.
    + intros i Hi.
      destruct i as [| [| [| i]]]; [rewrite H0 | rewrite H1 | rewrite H2 | lia];
        reflexivity.
    + intros self particles P g Hlay HP.
      apply (forward_reaches_detach xreal _ self _ _ particles 1 3 P g Hlay);
        [reflexivity | reflexivity | exact HP].
Qed.

Lemma normalization_is_unguarded_witness :
  exists t : Tensor xreal,
    ActionSampler.normalize_actions (finite_tensor (full [1; 3] 1%R))
      (finite_tensor (full [1] 2%R)) = Ok t /\
    shape t = [1; 3] /\
    forall b i, b < 1 -> i < 3 -> get t [b; i] = Fin (1 / 2).
Proof.
  destruct (proj1 normalization_is_unguarded (full [1; 3] 1%R) (full [1] 2%R) 1 3)
    as (t & Et & St & Hv).
  - reflexivity.
  - reflexivity.
  - exists t. split; [exact Et |]. split; [exact St |].
    intros b i Hb Hi. apply (proj1 (Hv b i Hb Hi)).
    + simpl. lra.
    + simpl. pose proof binary32_overflow_large as HT.
      rewrite Rabs_pos_eq by lra. lra.
Defined.

(** The sampler on a well-shaped batch: the call ends at line 183 with
    the missing method of None, after the draws for the random input
    were consumed; lines 185-190 are not reached. *)
Lemma forward_on_finite_batches :
  forall (self : ActionSampler.t R) (actions stds particles : Tensor R)
         (B D P : nat) (g : Generator R),
    sampler_layout D self ->
    shape actions = [B; D] -> shape stds = [B] -> shape particles = [B; P; D] ->
    ActionSampler.forward self actions stds particles g
    = (Raise (AttributeError "NoneType" "detach"), advance g (numel [B; P; D])).
Proof.
  intros self actions stds particles B D P g Hlay Ha Hs Hp.
  apply (forward_reaches_detach R _ self actions stds particles B D P g Hlay Ha Hs).
  rewrite Hp. reflexivity.
Qed.

(** C4: on the sampler built by lines 129-150, with one sample, two
    particles and unit scale, [forward] raises at line 183: the
    recentering of line 186 is not executed and there is no output
    whose noise could be averaged. *)
Theorem recentering_is_not_reached :
  ActionSampler.forward sampler0
    (full [1; 3] 1%R) (full [1] 1%R) (full [1; 2; 3] 0%R) zero_generator
  = (Raise (AttributeError "NoneType" "detach"), advance zero_generator 6).
Proof.
  apply (forward_on_finite_batches sampler0 _ _ _ 1 3 2 zero_generator);
    try reflexivity.
  repeat split; reflexivity.
Qed.

(** C5: on the same sampler, with two samples, four particles and
    scales equal to 2 (none is zero), [forward] returns no noisy
    actions: it raises at line 183. *)
Theorem forward_returns_no_actions :
  ActionSampler.forward sampler0
    (full [2; 3] 1%R) (full [2] 2%R) (full [2; 4; 3] 0%R) zero_generator
  = (Raise (AttributeError "NoneType" "detach"), advance zero_generator 24)
  /\ get (full [2] 2%R) [0] <> 0%R /\ get (full [2] 2%R) [1] <> 0%R.
Proof.
  split; [| split].
  - apply (forward_on_finite_batches sampler0 _ _ _ 2 3 4 zero_generator);
      try reflexivity.
    repeat split; reflexivity.
  - simpl. lra.
  - simpl. lra.
Qed.

(** ** Lines 185-190 on a tensor

    What the three last lines of [forward] compute when they are given
    a tensor for [delta]. *)

Lemma broadcast_particles_l :
  forall B P D : nat, broadcast_shapes [B; P; D] [B; 1; D] = Some [B; P; D].
Proof.
  intros B P D. unfold broadcast_shapes. cbn [rev app broadcast_rev].
  rewrite !Nat.eqb_refl. destruct (P =? 1) eqn:HP; reflexivity.
Qed.

Lemma broadcast_particles_r :
  forall B P D : nat, broadcast_shapes [B; 1; D] [B; P; D] = Some [B; P; D].
Proof.
  intros B P D. unfold broadcast_shapes. cbn [rev app broadcast_rev].
  rewrite !Nat.eqb_refl. destruct (1 =? P) eqn:HP.
  - apply Nat.eqb_eq in HP. subst P. reflexivity.
  - reflexivity.
Qed.

Lemma project_particles :
  forall B P D b p i : nat,
    b < B -> p < P -> i < D -> project [B; P; D] [b; p; i] = [b; p; i].
Proof.
  intros B P D b p i Hb Hp Hi. unfold project.
  cbn [List.length Nat.sub skipn combine map fst snd].
  destruct (B =? 1) eqn:HB; destruct (P =? 1) eqn:HP; destruct (D =? 1) eqn:HD;
    try apply Nat.eqb_eq in HB; try apply Nat.eqb_eq in HP;
    try apply Nat.eqb_eq in HD; repeat f_equal; lia.
Qed.

Lemma project_kept_dim :
  forall B D b p i : nat,
    b < B -> i < D -> project [B; 1; D] [b; p; i] = [b; 0; i].
Proof.
  intros B D b p i Hb Hi. unfold project.
  cbn [List.length Nat.sub skipn combine map fst snd].
  rewrite Nat.eqb_refl.
  destruct (B =? 1) eqn:HB; destruct (D =? 1) eqn:HD;
    try apply Nat.eqb_eq in HB; try apply Nat.eqb_eq in HD; repeat f_equal; lia.
Qed.

Lemma ssum_shifted :
  forall (n : nat) (f : nat -> R) (c : R),
    ssum n (fun k => (f k - c)%R) = (ssum n f - INR n * c)%R.
Proof.
  intros n f c. induction n as [| n IH].
  - simpl. lra.
  - rewrite S_INR. cbn [ssum]. rewrite IH. simpl. lra.
Qed.

Lemma ssum_plus_const :
  forall (n : nat) (f : nat -> R) (c : R),
    ssum n (fun k => (c + f k)%R) = (INR n * c + ssum n f)%R.
Proof.
  intros n f c. induction n as [| n IH].
  - simpl. lra.
  - rewrite S_INR. cbn [ssum]. rewrite IH. simpl. lra.
Qed.

(** Line 186 subtracts from every particle the mean over the particles
    of its sample. *)
Lemma zero_mean_value :
  forall (delta : Tensor R) (B P D : nat),
    shape delta = [B; P; D] ->
    exists d,
      ActionSampler.zero_mean delta = Ok d /\
      shape d = [B; P; D] /\
      forall b p i, b < B -> p < P -> i < D ->
        get d [b; p; i] =
        (get delta [b; p; i] - ssum P (fun q => get delta [b; q; i]) / INR P)%R.
Proof.
  intros delta B P D Hd.
  unfold ActionSampler.zero_mean, mean_dim1_keepdim. rewrite Hd.
  cbn [nth_error]. unfold Ok. cbv beta iota.
  unfold tbinop_inplace. cbn [shape]. rewrite Hd.
  change (replace_at 1 1 [B; P; D]) with [B; 1; D].
  rewrite broadcast_particles_l.
  destruct (list_eq_dec Nat.eq_dec [B; P; D] [B; P; D]) as [_ | Hn]; [| congruence].
  eexists. split; [reflexivity |]. split; [reflexivity |].
  intros b p i Hb Hp Hi. cbn [get].
  rewrite project_kept_dim by assumption. reflexivity.
Qed.

(** Line 189 adds to every particle the action of its sample. *)
Lemma add_noise_value :
  forall (actions delta : Tensor R) (B P D : nat),
    shape actions = [B; D] ->
    shape delta = [B; P; D] ->
    exists y,
      ActionSampler.add_noise actions delta = Ok y /\
      shape y = [B; P; D] /\
      forall b p i, b < B -> p < P -> i < D ->
        get y [b; p; i] = (get actions [b; i] + get delta [b; p; i])%R.
Proof.
  intros actions delta B P D Ha Hd.
  unfold ActionSampler.add_noise, unsqueeze1, rank. rewrite Ha.
  cbn [List.length Nat.eqb]. unfold Ok. cbv beta iota.
  unfold tbinop. cbn [shape]. rewrite Hd.
  change (insert_at 1 1 [B; D]) with [B; 1; D].
  rewrite broadcast_particles_r.
  eexists. split; [reflexivity |]. split; [reflexivity |].
  intros b p i Hb Hp Hi. cbn [get].
  rewrite project_kept_dim, project_particles by assumption. reflexivity.
Qed.

(** Given a tensor [delta] of shape (B, P, D) with at least one
    particle, lines 183-190 would return the actions plus a noise whose
    mean over the particles is zero, so that the mean of the returned
    actions over the particles is the nominal action. *)
Lemma recentered_noise :
  forall (actions delta : Tensor R) (B P D : nat),
    shape actions = [B; D] ->
    shape delta = [B; P; D] ->
    0 < P ->
    exists d y,
      ActionSampler.detach (PyTensor delta) = Ok delta /\
      ActionSampler.zero_mean delta = Ok d /\
      ActionSampler.add_noise actions d = Ok y /\
      shape y = [B; P; D] /\
      forall b i, b < B -> i < D ->
        (ssum P (fun p => get y [b; p; i] - get actions [b; i]) / INR P = 0)%R /\
        (ssum P (fun p => get y [b; p; i]) / INR P = get actions [b; i])%R.
Proof.
  intros actions delta B P D Ha Hd HP.
  destruct (zero_mean_value delta B P D Hd) as (d & Ed & Sd & Hdv).
  destruct (add_noise_value actions d B P D Ha Sd) as (y & Ey & Sy & Hyv).
  exists d, y. repeat split; try assumption.
  - rewrite (ssum_ext R _ P _
               (fun p => (get delta [b; p; i]
                          - ssum P (fun q => get delta [b; q; i]) / INR P)%R)).
    + rewrite ssum_shifted.
      assert (HnP : INR P <> 0%R) by (apply not_0_INR; lia).
      field. exact HnP.
    + intros p Hp. rewrite (Hyv b p i) by assumption.
      rewrite (Hdv b p i) by assumption. simpl. lra.
  - rewrite (ssum_ext R _ P _
               (fun p => (get actions [b; i]
                          + (get delta [b; p; i]
                             - ssum P (fun q => get delta [b; q; i]) / INR P))%R)).
    + rewrite ssum_plus_const, ssum_shifted.
      assert (HnP : INR P <> 0%R) by (apply not_0_INR; lia).
      field. exact HnP.
    + intros p Hp. rewrite (Hyv b p i) by assumption.
      rewrite (Hdv b p i) by assumption. reflexivity.
Qed.

(** * Further properties of the code *)

(** ** The likelihood estimator on other inputs *)

Lemma Linear_forward_last_dim :
  forall (A : Type) (S : Scalar A) (l : Linear A) (x : Tensor A) (s : list nat),
    shape x = s ++ [in_features l] ->
    exists y, Linear_forward l x = inr y /\ shape y = s ++ [out_features l].
Proof.
  intros A S l x s Hx. unfold Linear_forward. rewrite Hx, rev_app_distr.
  cbn [rev app]. rewrite Nat.eqb_refl, rev_involutive.
  eexists. split; reflexivity.
Qed.

Lemma Linear_forward_mismatch :
  forall (A : Type) (S : Scalar A) (l : Linear A) (x : Tensor A) (s : list nat)
         (d : nat),
    shape x = s ++ [d] ->
    d <> in_features l ->
    Linear_forward l x = Raise (RuntimeError "mat1 and mat2 shapes cannot be multiplied").
Proof.
  intros A S l x s d Hx Hd. unfold Linear_forward. rewrite Hx, rev_app_distr.
  cbn [rev app]. apply Nat.eqb_neq in Hd. rewrite Hd. reflexivity.
Qed.

Lemma estimator_forward_last_dim :
  forall (A : Type) (S : Scalar A) (self : ObservationalLikelihoodEstimator.t A)
         (x : Tensor A) (n : nat) (s : list nat) (g : Generator A),
    estimator_layout n self ->
    shape x = s ++ [n] ->
    exists y,
      ObservationalLikelihoodEstimator.forward self x g = (Ok y, g) /\
      shape y = s ++ [1].
Proof.
  intros A S self x n s g (H1 & H2 & H3 & H4 & H5 & H6) Hx.
  unfold ObservationalLikelihoodEstimator.forward. run_monad.
  rewrite <- H1 in Hx.
  destruct (Linear_forward_last_dim A S _ x s Hx) as (x1 & E1 & S1).
  rewrite E1. rewrite H2, <- H3 in S1.
  destruct (Linear_forward_last_dim A S _ (ReLU_forward x1) s S1) as (x2 & E2 & S2).
  rewrite E2. rewrite H4, <- H5 in S2.
  destruct (Linear_forward_last_dim A S _ (ReLU_forward x2) s S2) as (x3 & E3 & S3).
  rewrite E3. eexists. split; [reflexivity |].
  simpl. rewrite S3, H6. reflexivity.
Qed.

(** X1: the estimator acts on the last dimension only: an input of
    shape (..., n), whatever the leading dimensions (a batch, or a batch
    of particles), gives an output of shape (..., 1), and the generator
    is left as it was. *)
Theorem estimator_forward_any_rank :
  forall (A : Type) (S : Scalar A) (self : ObservationalLikelihoodEstimator.t A)
         (x : Tensor A) (n : nat) (s : list nat) (g : Generator A),
    estimator_layout n self ->
    shape x = s ++ [n] ->
    exists y,
      ObservationalLikelihoodEstimator.forward self x g = (Ok y, g) /\
      shape y = s ++ [1].
Proof.
  intros A S self x n s g Hlay Hx.
  exact (estimator_forward_last_dim A S self x n s g Hlay Hx).
Qed.

Lemma estimator_forward_any_rank_witness :
  exists y,
    ObservationalLikelihoodEstimator.forward estimator0 (full [2; 5; 128] 1%R)
      zero_generator = (Ok y, zero_generator) /\
    shape y = [2; 5; 1].
Proof.
  apply (estimator_forward_any_rank R _ estimator0 (full [2; 5; 128] 1%R) 128 [2; 5]
           zero_generator).
  - repeat split; reflexivity.
  - reflexivity.
Defined.

(** X2: an input whose last dimension is not the width the first layer
    was built for is refused with a RuntimeError, and nothing is drawn
    from the generator. *)
Theorem estimator_shape_mismatch :
  forall (A : Type) (S : Scalar A) (self : ObservationalLikelihoodEstimator.t A)
         (x : Tensor A) (s : list nat) (d : nat) (g : Generator A),
    shape x = s ++ [d] ->
    d <> in_features (ObservationalLikelihoodEstimator.fc1 self) ->
    ObservationalLikelihoodEstimator.forward self x g
    = (Raise (RuntimeError "mat1 and mat2 shapes cannot be multiplied"), g).
Proof.
  intros A S self x s d g Hx Hd.
  unfold ObservationalLikelihoodEstimator.forward, bind, lift.
  rewrite (Linear_forward_mismatch A S _ x s d Hx Hd). reflexivity.
Qed.

Lemma estimator_shape_mismatch_witness :
  ObservationalLikelihoodEstimator.forward estimator0 (full [2; 64] 1%R) zero_generator
  = (Raise (RuntimeError "mat1 and mat2 shapes cannot be multiplied"), zero_generator).
Proof.
  apply (estimator_shape_mismatch R _ estimator0 (full [2; 64] 1%R) [2] 64
           zero_generator).
  - reflexivity.
  - simpl. lia.
Defined.

(** X3: the floor is not validated, and the rescaling of line 113
    behaves accordingly.  Below one, every output lies strictly between
    the floor and one; at one, every output is one; above one, every
    output lies strictly between one and the floor.  (Exact
    arithmetic.) *)
Theorem estimator_floor_cases :
  forall (self : ObservationalLikelihoodEstimator.t R) (x y : Tensor R) (B : nat)
         (g g' : Generator R),
    estimator_layout 128 self ->
    shape x = [B; 128] ->
    ObservationalLikelihoodEstimator.forward self x g = (Ok y, g') ->
    forall idx,
      let m := ObservationalLikelihoodEstimator.min_observation_likelihood self in
      ((m < 1)%R -> (m < get y idx < 1)%R) /\
      (m = 1%R -> get y idx = 1%R) /\
      ((1 < m)%R -> (1 < get y idx < m)%R).
Proof.
  intros self x y B g g' Hlay Hx Hf idx m.
  destruct (estimator_forward_value self x 128 B g Hlay Hx) as (y' & z & Hy & _ & Hv).
  rewrite Hy in Hf. unfold Ok in Hf. injection Hf as Hyy _. subst y'.
  rewrite Hv. fold m.
  pose proof (Rsigmoid_bounds (get z idx)) as Hs.
  split; [| split]; intros Hm.
  - split; nra.
  - nra.
  - split; nra.
Qed.

Lemma estimator_floor_cases_witness :
  exists y,
    ObservationalLikelihoodEstimator.forward estimator0 (full [2; 128] 1%R)
      zero_generator = (Ok y, zero_generator) /\
    forall idx,
      (ObservationalLikelihoodEstimator.default_min_observation_likelihood
       < get y idx < 1)%R.
Proof.
  destruct (estimator_forward_value estimator0 (full [2; 128] 1%R) 128 2 zero_generator)
    as (y & z & Hy & _ & _).
  - repeat split; reflexivity.
  - reflexivity.
  - exists y. split; [exact Hy |]. intros idx.
    apply (estimator_floor_cases estimator0 (full [2; 128] 1%R) y 2
             zero_generator zero_generator).
    + repeat split; reflexivity.
    + reflexivity.
    + exact Hy.
    + cbv [estimator0 ObservationalLikelihoodEstimator.min_observation_likelihood
             ObservationalLikelihoodEstimator.default_min_observation_likelihood
             sdiv sof_nat Scalar_R].
      rewrite !INR_IZR_INZ. simpl. lra.
Defined.

Lemma ssum_NaN :
  forall (n : nat) (f : nat -> xreal) (k : nat),
    k < n -> f k = NaN -> ssum n f = NaN.
Proof.
  intros n f k. induction n as [| n IH]; intros Hk Hf.
  - lia.
  - cbn [ssum]. destruct (Nat.eq_dec k n) as [-> | Hne].
    + rewrite Hf. simpl. destruct (ssum n f); reflexivity.
    + rewrite IH by (try lia; exact Hf). reflexivity.
Qed.

Lemma Linear_forward_NaN_row :
  forall (l : Linear xreal) (x y : Tensor xreal) (b k : nat),
    Linear_forward l x = inr y ->
    k < in_features l ->
    get x [b; k] = NaN ->
    forall j, get y [b; j] = NaN.
Proof.
  intros l x y b k Hy Hk Hx j.
  rewrite (Linear_forward_get xreal _ l x y Hy). cbn [removelast app last].
  rewrite (ssum_NaN (in_features l) _ k Hk).
  - reflexivity.
  - rewrite Hx. reflexivity.
Qed.

(** X4: with special values, one NaN among the features of a sample
    makes the likelihood of that sample NaN, whatever the weights and
    the floor: the output is then outside the interval from the floor
    to one, and nothing is raised. *)
Theorem estimator_NaN_feature :
  forall (self : ObservationalLikelihoodEstimator.t xreal) (x : Tensor xreal)
         (B b k : nat) (g : Generator xreal),
    estimator_layout 128 self ->
    shape x = [B; 128] ->
    k < 128 ->
    get x [b; k] = NaN ->
    exists y,
      ObservationalLikelihoodEstimator.forward self x g = (Ok y, g) /\
      shape y = [B; 1] /\
      get y [b; 0] = NaN.
Proof.
  intros self x B b k g Hlay Hx Hk Hnan.
  destruct (estimator_forward_last_dim xreal _ self x 128 [B] g Hlay Hx)
    as (y & Hy & Sy).
  exists y. split; [exact Hy |]. split; [exact Sy |].
  destruct Hlay as (H1 & H2 & H3 & H4 & H5 & H6).
  unfold ObservationalLikelihoodEstimator.forward in Hy. run_monad.
  destruct (Linear_forward (ObservationalLikelihoodEstimator.fc1 self) x)
    as [e | x1] eqn:E1; [discriminate |].
  destruct (Linear_forward (ObservationalLikelihoodEstimator.fc2 self) _)
    as [e | x2] eqn:E2; [discriminate |].
  destruct (Linear_forward (ObservationalLikelihoodEstimator.fc3 self) _)
    as [e | x3] eqn:E3; [discriminate |].
  injection Hy as <-. cbn [get tmap Sigmoid_forward].
  assert (N1 : forall j, get x1 [b; j] = NaN).
  { apply (Linear_forward_NaN_row _ x x1 b k E1); [rewrite H1; exact Hk | exact Hnan]. }
  assert (N2 : forall j, get x2 [b; j] = NaN).
  { apply (Linear_forward_NaN_row _ _ x2 b 0 E2); [rewrite H3; lia |].
    cbn [ReLU_forward tmap get]. rewrite N1. reflexivity. }
  assert (N3 : forall j, get x3 [b; j] = NaN).
  { apply (Linear_forward_NaN_row _ _ x3 b 0 E3); [rewrite H5; lia |].
    cbn [ReLU_forward tmap get]. rewrite N2. reflexivity. }
  rewrite N3. reflexivity.
Qed.

Lemma estimator_NaN_feature_witness :
  exists y,
    ObservationalLikelihoodEstimator.forward xestimator0 nan_features
      {| normal := fun _ => Fin 0; uniform := fun _ => Fin 0; offset := 0 |}
    = (Ok y, {| normal := fun _ => Fin 0; uniform := fun _ => Fin 0; offset := 0 |}) /\
    shape y = [1; 1] /\
    get y [0; 0] = NaN.
Proof.
  apply (estimator_NaN_feature xestimator0 nan_features 1 0 5).
  - repeat split; reflexivity.
  - reflexivity.
  - lia.
  - reflexivity.
Defined.

(** ** The encoder in evaluation mode, and with the layers as written *)

(** X5: in evaluation mode the encoder does not use the generator: two
    calls on the same batch give the same result whatever the state of
    the generator, and leave the generator as it was. *)
Theorem encoder_eval_ignores_generator :
  forall (A : Type) (S : Scalar A) (self : ObservationalEncoder.t A) (x : Tensor A)
         (g1 g2 : Generator A),
    fst (ObservationalEncoder.forward (ObservationalEncoder.train false self) x g1)
    = fst (ObservationalEncoder.forward (ObservationalEncoder.train false self) x g2)
    /\
    snd (ObservationalEncoder.forward (ObservationalEncoder.train false self) x g1) = g1.
Proof.
  intros A S self x g1 g2. rewrite !encoder_forward_spec.
  cbn [ObservationalEncoder.train ObservationalEncoder.conv1 ObservationalEncoder.conv2
       ObservationalEncoder.conv3 ObservationalEncoder.dropout ObservationalEncoder.fc].
  destruct (Conv2d_forward (ObservationalEncoder.conv1 self) x) as [e | x1];
    [split; reflexivity |].
  destruct (Conv2d_forward (ObservationalEncoder.conv2 self) _) as [e | x2];
    [split; reflexivity |].
  destruct (Conv2d_forward (ObservationalEncoder.conv3 self) _) as [e | x3];
    [split; reflexivity |].
  unfold Dropout_forward. cbn [dropout_training]. unfold ret, Ok.
  destruct (Flatten_forward (ReLU_forward x3)) as [e | x5]; [split; reflexivity |].
  destruct (Linear_forward (ObservationalEncoder.fc self) x5) as [e | x6];
    split; reflexivity.
Qed.

(** X6: an encoder whose first convolution has the padding mode 'same'
    and a stride other than one, as line 41 asks, cannot process any
    input: [forward] raises a RuntimeError at the first layer and draws
    nothing from the generator. *)
Theorem encoder_forward_same_padding :
  forall (A : Type) (S : Scalar A) (self : ObservationalEncoder.t A) (x : Tensor A)
         (g : Generator A),
    padding (ObservationalEncoder.conv1 self) = PadSame ->
    stride (ObservationalEncoder.conv1 self) <> 1 ->
    exists msg,
      ObservationalEncoder.forward self x g = (Raise (RuntimeError msg), g).
Proof.
  intros A S self x g Hp Hs. rewrite encoder_forward_spec.
  assert (Hc : exists msg,
             Conv2d_forward (ObservationalEncoder.conv1 self) x
             = inl (RuntimeError msg)).
  { unfold Conv2d_forward, conv_checks, pad_amounts. rewrite Hp.
    apply Nat.eqb_neq in Hs. rewrite Hs.
    destruct (shape x) as [| n [| ch [| h [| w [| ? ?]]]]];
      eexists; reflexivity. }
  destruct Hc as (msg & Hc). rewrite Hc. exists msg. reflexivity.
Qed.

Lemma encoder_forward_same_padding_witness :
  exists msg,
    ObservationalEncoder.forward encoder_as_written (full [1; 3; 8; 8] 1%R)
      zero_generator = (Raise (RuntimeError msg), zero_generator).
Proof.
  apply (encoder_forward_same_padding R _ encoder_as_written).
  - reflexivity.
  - simpl. lia.
Defined.

(** ** The sampler: which exception a call ends with *)

Lemma forward_reaches_fc1 :
  forall (A : Type) (S : Scalar A) (self : ActionSampler.t A)
         (actions stds particles : Tensor A) (B D P : nat) (g : Generator A),
    shape actions = [B; D] ->
    shape stds = [B] ->
    nth_error (shape particles) 1 = Some P ->
    in_features (ActionSampler.fc1 self) <> D + D ->
    ActionSampler.forward self actions stds particles g
    = (Raise (RuntimeError "mat1 and mat2 shapes cannot be multiplied"),
       advance g (numel [B; P; D])).
Proof.
  intros A S self actions stds particles B D P g Ha Hs Hp Hne.
  unfold ActionSampler.forward, bind, lift.
  destruct (normalize_actions_value A S actions stds B D Ha Hs) as (t & Et & St & _).
  rewrite Et. unfold Ok. cbv beta iota.
  destruct (expand_over_particles_shape A S t particles B D P St Hp)
    as (e & Ee & Se & _).
  rewrite Ee. unfold Ok. cbv beta iota.
  unfold randn_like at 1. unfold Ok. cbv beta iota. rewrite Se.
  set (r := {| shape := [B; P; D]; get := _ |}).
  destruct (cat_last_shape A S e r B P D D Se eq_refl) as (x & Ex & Sx & _).
  rewrite Ex. unfold Ok. cbv beta iota.
  rewrite generate_motion_noise_spec.
  rewrite (Linear_forward_mismatch A S _ x [B; P] (D + D) Sx)
    by (intros Heq; apply Hne; symmetry; exact Heq).
  reflexivity.
Qed.

(** X7: a sampler constructed with a noise dimension other than the
    action dimension cannot run its own network: line 174 draws as many
    random features as there are action features, so the concatenated
    input has width 2 * action_dim while fc1 expects
    action_dim + noise_dim, and a well-shaped call ends with a
    RuntimeError in fc1, after the draws were consumed. *)
Theorem sampler_noise_dim_mismatch :
  forall (A : Type) (S : Scalar A) (action_dim state_dim n : nat)
         (self : ActionSampler.t A) (g0 g1 g : Generator A)
         (actions stds particles : Tensor A) (B P : nat),
    ActionSampler.layers action_dim state_dim (Some n) g0 = (Ok self, g1) ->
    n <> action_dim ->
    shape actions = [B; action_dim] ->
    shape stds = [B] ->
    shape particles = [B; P; state_dim] ->
    ActionSampler.forward self actions stds particles g
    = (Raise (RuntimeError "mat1 and mat2 shapes cannot be multiplied"),
       advance g (B * (P * (action_dim * 1)))).
Proof.
  intros A S action_dim state_dim n self g0 g1 g actions stds particles B P
         Hl Hn Ha Hs Hp.
  apply (forward_reaches_fc1 A S self actions stds particles B action_dim P g Ha Hs).
  - rewrite Hp. reflexivity.
  - unfold ActionSampler.layers, bind, ret, Linear_new, Ok in Hl.
    cbv beta iota zeta in Hl. injection Hl as <- _. cbn. lia.
Qed.

Lemma sampler_noise_dim_mismatch_witness :
  ActionSampler.forward sampler_noise5
    (full [1; 3] 1%R) (full [1] 1%R) (full [1; 2; 3] 0%R) zero_generator
  = (Raise (RuntimeError "mat1 and mat2 shapes cannot be multiplied"),
     advance zero_generator 6).
Proof.
  apply (sampler_noise_dim_mismatch R _ 3 3 5 sampler_noise5 zero_generator
           (snd (ActionSampler.layers 3 3 (Some 5) zero_generator)) zero_generator
           (full [1; 3] 1%R) (full [1] 1%R) (full [1; 2; 3] 0%R) 1 2).
  - reflexivity.
  - lia.
  - reflexivity.
  - reflexivity.
  - reflexivity.
Defined.

(** X8: for a sampler constructed with the default noise dimension,
    every well-shaped call (actions (B, D), scales (B,), particles
    (B, P, state_dim)) runs the network, consumes B * P * D normal
    draws from the generator and then raises AttributeError for the
    missing [detach] of None: the call has a side effect on the
    generator although it returns nothing. *)
Theorem forward_well_shaped_call :
  forall (A : Type) (S : Scalar A) (action_dim state_dim : nat)
         (self : ActionSampler.t A) (g0 g1 g : Generator A)
         (actions stds particles : Tensor A) (B P : nat),
    ActionSampler.layers action_dim state_dim None g0 = (Ok self, g1) ->
    shape actions = [B; action_dim] ->
    shape stds = [B] ->
    shape particles = [B; P; state_dim] ->
    ActionSampler.forward self actions stds particles g
    = (Raise (AttributeError "NoneType" "detach"),
       advance g (B * (P * (action_dim * 1)))).
Proof.
  intros A S action_dim state_dim self g0 g1 g actions stds particles B P
         Hl Ha Hs Hp.
  apply (forward_reaches_detach A S self actions stds particles B action_dim P g).
  - unfold ActionSampler.layers, bind, ret, Linear_new, Ok in Hl.
    cbv beta iota zeta in Hl. injection Hl as <- _. repeat split.
  - exact Ha.
  - exact Hs.
  - rewrite Hp. reflexivity.
Qed.

Lemma forward_well_shaped_call_witness :
  ActionSampler.forward sampler0
    (full [2; 3] 1%R) (full [2] 1%R) (full [2; 4; 3] 0%R) zero_generator
  = (Raise (AttributeError "NoneType" "detach"), advance zero_generator 24).
Proof.
  apply (forward_well_shaped_call R _ 3 3 sampler0 zero_generator
           (snd (ActionSampler.layers 3 3 None zero_generator)) zero_generator
           (full [2; 3] 1%R) (full [2] 1%R) (full [2; 4; 3] 0%R) 2 4).
  - reflexivity.
  - reflexivity.
  - reflexivity.
  - reflexivity.
Defined.

(** X9: the ranks of the arguments are checked only by the operations
    that meet them.  A scale without dimensions is refused by the
    indexing [stds[:, None]] of line 167 with an IndexError; with
    well-shaped actions and scales, particles of rank below two are
    refused by [particles.shape[1]] of line 171 with an IndexError.  In
    both cases nothing was drawn from the generator. *)
Theorem forward_rank_errors :
  forall (A : Type) (S : Scalar A) (self : ActionSampler.t A)
         (actions stds particles : Tensor A) (g : Generator A),
    (shape stds = [] ->
     ActionSampler.forward self actions stds particles g
     = (Raise (IndexError "too many indices for tensor of dimension 0"), g))
    /\
    (forall B D,
       shape actions = [B; D] -> shape stds = [B] ->
       List.length (shape particles) < 2 ->
       ActionSampler.forward self actions stds particles g
       = (Raise (IndexError "tuple index out of range"), g)).
Proof.
  intros A S self actions stds particles g. split.
  - intros Hs. unfold ActionSampler.forward, bind, lift,
      ActionSampler.normalize_actions, index_colon_none, rank.
    rewrite Hs. reflexivity.
  - intros B D Ha Hs Hr. unfold ActionSampler.forward, bind, lift.
    destruct (normalize_actions_value A S actions stds B D Ha Hs) as (t & Et & St & _).
    rewrite Et. unfold Ok. cbv beta iota.
    unfold ActionSampler.expand_over_particles, unsqueeze1, shape1, rank.
    rewrite St. cbn [List.length Nat.eqb]. unfold Ok. cbv beta iota.
    destruct (shape particles) as [| a [| b r]]; cbn in Hr; try lia; reflexivity.
Qed.

Lemma forward_rank_errors_witness :
  ActionSampler.forward sampler0 (full [1; 3] 1%R) (full [] 1%R) (full [1; 2; 3] 0%R)
    zero_generator
  = (Raise (IndexError "too many indices for tensor of dimension 0"), zero_generator)
  /\
  ActionSampler.forward sampler0 (full [1; 3] 1%R) (full [1] 1%R) (full [7] 0%R)
    zero_generator
  = (Raise (IndexError "tuple index out of range"), zero_generator).
Proof.
  split.
  - apply (proj1 (forward_rank_errors R _ sampler0 (full [1; 3] 1%R) (full [] 1%R)
                    (full [1; 2; 3] 0%R) zero_generator)).
    reflexivity.
  - apply (proj2 (forward_rank_errors R _ sampler0 (full [1; 3] 1%R) (full [1] 1%R)
                    (full [7] 0%R) zero_generator) 1 3).
    + reflexivity.
    + reflexivity.
    + simpl. lia.
Defined.

(** ** Broadcasting in the normalisation *)

(** X10: line 167 follows the broadcasting rules in the batch dimension
    and never compares the two batch sizes itself.  A single scale
    serves every sample; a single row of actions is silently repeated
    for every scale, so that the result has as many rows as there are
    scales; two batch sizes that differ and are both other than one are
    refused with a RuntimeError. *)
Theorem normalize_actions_broadcast :
  forall (A : Type) (S : Scalar A) (actions stds : Tensor A) (Ba Bs D : nat),
    shape actions = [Ba; D] ->
    shape stds = [Bs] ->
    (Bs = 1 ->
     exists t,
       ActionSampler.normalize_actions actions stds = Ok t /\
       shape t = [Ba; D] /\
       forall b i, b < Ba -> i < D ->
         get t [b; i] = sdiv (get actions [b; i]) (get stds [0]))
    /\
    (Ba = 1 ->
     exists t,
       ActionSampler.normalize_actions actions stds = Ok t /\
       shape t = [Bs; D] /\
       forall b i, b < Bs -> i < D ->
         get t [b; i] = sdiv (get actions [0; i]) (get stds [b]))
    /\
    (Ba <> Bs -> Ba <> 1 -> Bs <> 1 ->
     ActionSampler.normalize_actions actions stds
     = Raise (RuntimeError "The size of tensor a must match the size of tensor b")).
Proof.
  intros A S actions stds Ba Bs D Ha Hs.
  unfold ActionSampler.normalize_actions, index_colon_none, rank.
  rewrite Hs. cbn [List.length Nat.eqb]. unfold Ok. cbv beta iota.
  unfold tbinop. cbn [shape]. rewrite Ha.
  change (insert_at 1 1 [Bs]) with [Bs; 1].
  unfold broadcast_shapes. cbn [rev app broadcast_rev].
  split; [| split].
  - intros ->. rewrite Nat.eqb_refl.
    assert (Hb : (if Ba =? 1 then Some [Ba] else if Ba =? 1 then Some [1] else Some [Ba])
                 = Some [Ba]).
    { destruct (Ba =? 1) eqn:E; [reflexivity | reflexivity]. }
    rewrite Hb.
    assert (Hd : (if D =? 1 then Some [D; Ba]
                  else if D =? 1 then Some [1; Ba] else Some [D; Ba]) = Some [D; Ba]).
    { destruct (D =? 1); reflexivity. }
    rewrite Hd. cbn [option_map rev app].
    eexists. split; [reflexivity |]. split; [reflexivity |].
    intros b i Hb' Hi. cbn [get].
    rewrite project_in_range by assumption.
    unfold project. cbn [List.length Nat.sub skipn combine map fst snd Nat.eqb].
    reflexivity.
  - intros ->.
    assert (Hb : (if 1 =? Bs then Some [1]
                  else if 1 =? 1 then Some [Bs]
                  else if Bs =? 1 then Some [1] else None) = Some [Bs]).
    { destruct (1 =? Bs) eqn:E; [apply Nat.eqb_eq in E; subst; reflexivity |].
      reflexivity. }
    rewrite Hb.
    assert (Hd : (if D =? 1 then Some [D; Bs]
                  else if D =? 1 then Some [1; Bs]
                  else if 1 =? 1 then Some [D; Bs] else None) = Some [D; Bs]).
    { destruct (D =? 1); reflexivity. }
    rewrite Hd. cbn [option_map rev app].
    eexists. split; [reflexivity |]. split; [reflexivity |].
    intros b i Hb' Hi. cbn [get].
    rewrite project_column by assumption.
    unfold project. cbn [List.length Nat.sub skipn combine map fst snd].
    rewrite Nat.eqb_refl. unfold remove_at. cbn [firstn skipn app].
    destruct (D =? 1) eqn:E; [apply Nat.eqb_eq in E |];
      repeat f_equal; lia.
  - intros Hne Ha1 Hs1.
    apply Nat.eqb_neq in Hne, Ha1, Hs1. rewrite Hne, Ha1, Hs1. reflexivity.
Qed.

Lemma normalize_actions_broadcast_witness :
  (exists t,
     ActionSampler.normalize_actions (full [1; 3] 6%R) (full [4] 2%R) = Ok t /\
     shape t = [4; 3])
  /\
  ActionSampler.normalize_actions (full [2; 3] 6%R) (full [4] 2%R)
  = Raise (RuntimeError "The size of tensor a must match the size of tensor b").
Proof.
  pose proof (normalize_actions_broadcast R _ (full [1; 3] 6%R) (full [4] 2%R) 1 4 3
                eq_refl eq_refl) as (_ & H1 & _).
  pose proof (normalize_actions_broadcast R _ (full [2; 3] 6%R) (full [4] 2%R) 2 4 3
                eq_refl eq_refl) as (_ & _ & H2).
  split.
  - destruct (H1 eq_refl) as (t & Et & St & _). exists t. split; assumption.
  - apply H2; lia.
Defined.

(** ** The recentering of line 186 *)

(** X11: lines 183-190 on a tensor.  Given for [delta] a tensor of
    shape (B, P, D) with at least one particle, the detach, the
    recentering and the addition succeed and return a tensor of shape
    (B, P, D) whose noise (the result minus the actions of the sample)
    has mean zero over the particles; the mean of the result over the
    particles is the action of the sample.  (Exact arithmetic.) *)
Theorem recentering_on_a_tensor :
  forall (actions delta : Tensor R) (B P D : nat),
    shape actions = [B; D] ->
    shape delta = [B; P; D] ->
    0 < P ->
    exists d y,
      ActionSampler.detach (PyTensor delta) = Ok delta /\
      ActionSampler.zero_mean delta = Ok d /\
      ActionSampler.add_noise actions d = Ok y /\
      shape y = [B; P; D] /\
      forall b i, b < B -> i < D ->
        (ssum P (fun p => get y [b; p; i] - get actions [b; i]) / INR P = 0)%R /\
        (ssum P (fun p => get y [b; p; i]) / INR P = get actions [b; i])%R.
Proof.
  intros actions delta B P D Ha Hd HP.
  exact (recentered_noise actions delta B P D Ha Hd HP).
Qed.

Lemma recentering_on_a_tensor_witness :
  exists d y,
    ActionSampler.detach (PyTensor (full [1; 2; 3] 5%R)) = Ok (full [1; 2; 3] 5%R) /\
    ActionSampler.zero_mean (full [1; 2; 3] 5%R) = Ok d /\
    ActionSampler.add_noise (full [1; 3] 1%R) d = Ok y /\
    shape y = [1; 2; 3] /\
    forall b i, b < 1 -> i < 3 ->
      (ssum 2 (fun p => get y [b; p; i] - 1) / INR 2 = 0)%R /\
      (ssum 2 (fun p => get y [b; p; i]) / INR 2 = 1)%R.
Proof.
  apply (recentering_on_a_tensor (full [1; 3] 1%R) (full [1; 2; 3] 5%R) 1 2 3).
  - reflexivity.
  - reflexivity.
  - lia.
Defined.

Lemma zero_mean_sum :
  forall (delta d : Tensor R) (B P D b i : nat),
    shape delta = [B; P; D] ->
    ActionSampler.zero_mean delta = Ok d ->
    0 < P -> b < B -> i < D ->
    ssum P (fun p => get d [b; p; i]) = 0%R.
Proof.
  intros delta d B P D b i Hd Ed HP Hb Hi.
  destruct (zero_mean_value delta B P D Hd) as (d' & Ed' & _ & Hv).
  rewrite Ed in Ed'. unfold Ok in Ed'. injection Ed' as <-.
  rewrite (ssum_ext R _ P _
             (fun p => (get delta [b; p; i]
                        - ssum P (fun q => get delta [b; q; i]) / INR P)%R)).
  - rewrite ssum_shifted.
    assert (HnP : INR P <> 0%R) by (apply not_0_INR; lia).
    field. exact HnP.
  - intros p Hp. apply Hv; assumption.
Qed.

(** X12: recentering is idempotent: applied to a tensor (B, P, D) with
    at least one particle that has already been recentered, line 186
    changes no element.  (Exact arithmetic.) *)
Theorem zero_mean_idempotent :
  forall (delta : Tensor R) (B P D : nat),
    shape delta = [B; P; D] ->
    0 < P ->
    exists d d',
      ActionSampler.zero_mean delta = Ok d /\
      ActionSampler.zero_mean d = Ok d' /\
      shape d' = [B; P; D] /\
      forall b p i, b < B -> p < P -> i < D ->
        get d' [b; p; i] = get d [b; p; i].
Proof.
  intros delta B P D Hd HP.
  destruct (zero_mean_value delta B P D Hd) as (d & Ed & Sd & _).
  destruct (zero_mean_value d B P D Sd) as (d' & Ed' & Sd' & Hv').
  exists d, d'. repeat split; try assumption.
  intros b p i Hb Hp Hi. rewrite (Hv' b p i Hb Hp Hi).
  rewrite (zero_mean_sum delta d B P D b i Hd Ed HP Hb Hi).
  unfold Rdiv. rewrite Rmult_0_l. apply Rminus_0_r.
Qed.

Lemma zero_mean_idempotent_witness :
  exists d d',
    ActionSampler.zero_mean (full [1; 2; 3] 5%R) = Ok d /\
    ActionSampler.zero_mean d = Ok d' /\
    shape d' = [1; 2; 3] /\
    forall b p i, b < 1 -> p < 2 -> i < 3 -> get d' [b; p; i] = get d [b; p; i].
Proof.
  apply (zero_mean_idempotent (full [1; 2; 3] 5%R) 1 2 3).
  - reflexivity.
  - lia.
Defined.

Lemma zero_mean_value_any :
  forall (A : Type) (S : Scalar A) (delta : Tensor A) (B P D : nat),
    shape delta = [B; P; D] ->
    exists d,
      ActionSampler.zero_mean delta = Ok d /\
      shape d = [B; P; D] /\
      forall b p i, b < B -> p < P -> i < D ->
        get d [b; p; i] =
        ssub (get delta [b; p; i])
             (sdiv (ssum P (fun q => get delta [b; q; i])) (sof_nat P)).
Proof.
  intros A S delta B P D Hd.
  unfold ActionSampler.zero_mean, mean_dim1_keepdim. rewrite Hd.
  cbn [nth_error]. unfold Ok. cbv beta iota.
  unfold tbinop_inplace. cbn [shape]. rewrite Hd.
  change (replace_at 1 1 [B; P; D]) with [B; 1; D].
  rewrite broadcast_particles_l.
  destruct (list_eq_dec Nat.eq_dec [B; P; D] [B; P; D]) as [_ | Hn]; [| congruence].
  eexists. split; [reflexivity |]. split; [reflexivity |].
  intros b p i Hb Hp Hi. cbn [get].
  rewrite project_kept_dim by assumption. reflexivity.
Qed.

(** X13: with special values, one NaN particle spoils its whole sample:
    if the noise of one particle is NaN in some dimension, then after
    the recentering of line 186 the noise of every particle of that
    sample is NaN in that dimension, and nothing is raised. *)
Theorem zero_mean_NaN_particle :
  forall (delta : Tensor xreal) (B P D b q i : nat),
    shape delta = [B; P; D] ->
    b < B -> q < P -> i < D ->
    get delta [b; q; i] = NaN ->
    exists d,
      ActionSampler.zero_mean delta = Ok d /\
      shape d = [B; P; D] /\
      forall p, p < P -> get d [b; p; i] = NaN.
Proof.
  intros delta B P D b q i Hd Hb Hq Hi Hnan.
  destruct (zero_mean_value_any xreal _ delta B P D Hd) as (d & Ed & Sd & Hv).
  exists d. split; [exact Ed |]. split; [exact Sd |].
  intros p Hp. rewrite (Hv b p i Hb Hp Hi).
  rewrite (ssum_NaN P _ q Hq Hnan). simpl.
  destruct (get delta [b; p; i]); reflexivity.
Qed.

Lemma zero_mean_NaN_particle_witness :
  exists d,
    ActionSampler.zero_mean nan_delta = Ok d /\
    shape d = [1; 2; 3] /\
    forall p, p < 2 -> get d [0; p; 1] = NaN.
Proof.
  apply (zero_mean_NaN_particle nan_delta 1 2 3 0 0 1).
  - reflexivity.
  - lia.
  - lia.
  - lia.
  - reflexivity.
Defined.

Lemma broadcast_rev_same_or_one :
  forall a b : list nat,
    Forall2 (fun x y => y = x \/ y = 1) a b -> broadcast_rev a b = Some a.
Proof.
  intros a b Hab. induction Hab as [| x y a b Hxy _ IH].
  - reflexivity.
  - cbn [broadcast_rev]. rewrite IH.
    destruct (x =? y) eqn:Exy; [reflexivity |].
    destruct Hxy as [-> | ->]; [rewrite Nat.eqb_refl in Exy; discriminate |].
    destruct (x =? 1) eqn:Ex1.
    + apply Nat.eqb_eq in Ex1. subst x. discriminate.
    + reflexivity.
Qed.

Lemma Forall2_same_or_one_refl :
  forall l : list nat, Forall2 (fun x y => y = x \/ y = 1) l l.
Proof. induction l; constructor; auto. Qed.

(** X15: the recentering of line 186 accepts every tensor with at
    least two dimensions, whatever their sizes (an empty batch or no
    particle at all included), and returns a tensor of the same shape;
    a tensor with fewer than two dimensions is refused with an
    IndexError. *)
Theorem zero_mean_shape :
  forall (A : Type) (S : Scalar A) (delta : Tensor A),
    (List.length (shape delta) < 2 ->
     ActionSampler.zero_mean delta = Raise (IndexError "Dimension out of range"))
    /\
    (2 <= List.length (shape delta) ->
     exists d, ActionSampler.zero_mean delta = Ok d /\ shape d = shape delta).
Proof.
  intros A S delta. unfold ActionSampler.zero_mean, mean_dim1_keepdim.
  destruct (shape delta) as [| a [| p r]] eqn:Hs; split; intros Hl;
    cbn in Hl; try lia; try reflexivity.
  cbn [nth_error]. unfold Ok. cbv beta iota.
  unfold tbinop_inplace. cbn [shape]. rewrite Hs.
  change (replace_at 1 1 (a :: p :: r)) with (a :: 1 :: r).
  assert (Hb : broadcast_shapes (a :: p :: r) (a :: 1 :: r) = Some (a :: p :: r)).
  { unfold broadcast_shapes. rewrite broadcast_rev_same_or_one.
    - cbn [option_map]. rewrite rev_involutive. reflexivity.
    - cbn [rev]. repeat apply Forall2_app.
      + apply Forall2_same_or_one_refl.
      + constructor; [right; reflexivity | constructor].
      + constructor; [left; reflexivity | constructor]. }
  rewrite Hb.
  destruct (list_eq_dec Nat.eq_dec (a :: p :: r) (a :: p :: r)) as [_ | Hn];
    [| congruence].
  eexists. split; reflexivity.
Qed.

Lemma zero_mean_shape_witness :
  ActionSampler.zero_mean (full [7] 1%R) = Raise (IndexError "Dimension out of range")
  /\
  exists d,
    ActionSampler.zero_mean (full [2; 0; 3; 4] 1%R) = Ok d /\ shape d = [2; 0; 3; 4].
Proof.
  split.
  - apply (proj1 (zero_mean_shape R _ (full [7] 1%R))). simpl. lia.
  - apply (proj2 (zero_mean_shape R _ (full [2; 0; 3; 4] 1%R))). simpl. lia.
Defined.

(** ** The input of the noise network *)

Lemma cat_last_values :
  forall (A : Type) (S : Scalar A) (t1 t2 : Tensor A) (B P D1 D2 : nat),
    shape t1 = [B; P; D1] ->
    shape t2 = [B; P; D2] ->
    exists x,
      cat_last t1 t2 = Ok x /\ shape x = [B; P; D1 + D2] /\
      forall b p i,
        (i < D1 -> get x [b; p; i] = get t1 [b; p; i]) /\
        get x [b; p; D1 + i] = get t2 [b; p; i].
Proof.
  intros A S t1 t2 B P D1 D2 H1 H2. unfold cat_last. rewrite H1, H2.
  cbn [rev app].
  destruct (list_eq_dec Nat.eq_dec [P; B] [P; B]) as [_ | Hn]; [| congruence].
  eexists. split; [reflexivity |]. split; [reflexivity |].
  intros b p i. split.
  - intros Hi. cbn [get last].
    replace (i <? D1) with true by (symmetry; apply Nat.ltb_lt; exact Hi).
    reflexivity.
  - cbn [get last removelast app].
    replace (D1 + i <? D1) with false by (symmetry; apply Nat.ltb_ge; lia).
    replace (D1 + i - D1) with i by lia. reflexivity.
Qed.

(** X14: what the noise network is fed (lines 167-177).  On a
    well-shaped call the concatenated input has shape (B, P, 2D); for
    every particle of a sample its first D features are the actions of
    the sample divided by the scale of the sample, the same for all the
    particles, and its last D features are normal draws, taken from the
    generator in row-major order, one draw per element. *)
Theorem noise_network_input :
  forall (A : Type) (S : Scalar A) (actions stds particles : Tensor A)
         (B D P : nat) (g : Generator A),
    shape actions = [B; D] ->
    shape stds = [B] ->
    nth_error (shape particles) 1 = Some P ->
    exists t e r x,
      ActionSampler.normalize_actions actions stds = Ok t /\
      ActionSampler.expand_over_particles t particles = Ok e /\
      randn_like e g = (Ok r, advance g (B * P * D)) /\
      cat_last e r = Ok x /\
      shape x = [B; P; D + D] /\
      forall b p i, b < B -> p < P -> i < D ->
        get x [b; p; i] = sdiv (get actions [b; i]) (get stds [b]) /\
        get x [b; p; D + i] = normal g (offset g + ((b * P + p) * D + i)).
Proof.
  intros A S actions stds particles B D P g Ha Hs Hp.
  destruct (normalize_actions_value A S actions stds B D Ha Hs) as (t & Et & St & Hv).
  destruct (expand_over_particles_shape A S t particles B D P St Hp)
    as (e & Ee & Se & He).
  set (r := {| shape := [B; P; D];
               get := fun idx => normal g (offset g + flat_index [B; P; D] idx) |}).
  destruct (cat_last_values A S e r B P D D Se eq_refl) as (x & Ex & Sx & Hx).
  exists t, e, r, x.
  split; [exact Et |]. split; [exact Ee |]. split.
  - unfold randn_like. rewrite Se. unfold r. f_equal. f_equal.
    unfold numel, fold_right. lia.
  - split; [exact Ex |]. split; [exact Sx |].
    intros b p i Hb Hpp Hi. destruct (Hx b p i) as (Hx1 & Hx2). split.
    + rewrite (Hx1 Hi), (He b p i Hb Hi). apply Hv; assumption.
    + rewrite Hx2. unfold r. cbn [get flat_index]. f_equal. f_equal.
      unfold numel, fold_right. ring.
Qed.

Lemma noise_network_input_witness :
  exists t e r x,
    ActionSampler.normalize_actions (full [2; 3] 6%R) (full [2] 2%R) = Ok t /\
    ActionSampler.expand_over_particles t (full [2; 4; 3] 0%R) = Ok e /\
    randn_like e zero_generator = (Ok r, advance zero_generator (2 * 4 * 3)) /\
    cat_last e r = Ok x /\
    shape x = [2; 4; 6] /\
    forall b p i, b < 2 -> p < 4 -> i < 3 ->
      get x [b; p; i] = (6 / 2)%R /\
      get x [b; p; 3 + i] = 0%R.
Proof.
  exact (noise_network_input R _ (full [2; 3] 6%R) (full [2] 2%R) (full [2; 4; 3] 0%R)
           2 3 4 zero_generator eq_refl eq_refl eq_refl).
Defined.

(** The draws of line 174 do not overlap: two different elements of the
    random input of shape (B, P, D) read two different positions of the
    generator's stream. *)
Lemma random_input_positions :
  forall (B P D b p i b' p' i' : nat),
    b < B -> p < P -> i < D -> b' < B -> p' < P -> i' < D ->
    flat_index [B; P; D] [b; p; i] = flat_index [B; P; D] [b'; p'; i'] ->
    [b; p; i] = [b'; p'; i'].
Proof.
  intros B P D b p i b' p' i' Hb Hp Hi Hb' Hp' Hi' Hf.
  cbn [flat_index] in Hf. unfold numel, fold_right in Hf.
  rewrite !Nat.mul_1_r, !Nat.add_0_r in Hf.
  assert (Hq : p * D + i = p' * D + i' /\ b = b').
  { assert (Hlt : p * D + i < P * D) by nia.
    assert (Hlt' : p' * D + i' < P * D) by nia.
    destruct (Nat.lt_trichotomy b b') as [Hlt2 | [Heq | Hgt]].
    - exfalso. nia.
    - subst b'. split; [lia | reflexivity].
    - exfalso. nia. }
  destruct Hq as (Hq & ->).
  assert (Hpp : p = p').
  { destruct (Nat.lt_trichotomy p p') as [Hlt2 | [Heq | Hgt]];
      [exfalso; nia | exact Heq | exfalso; nia]. }
  subst p'. f_equal. f_equal. f_equal. lia.
Qed.

(** ** The encoder with numeric padding *)

(** X16: [forward] of the encoder on instances whose three convolutions
    have kernel 3, stride 2 and the padding 1 (a number, not the mode
    'same'), with the channel counts and the fully-connected layer of
    lines 41-59: for H and W positive multiples of 8, a batch
    (B, c, H, W) is mapped to features of shape (B, 128), in training
    as in evaluation mode; the three convolutions halve the image three
    times and the fully-connected layer reads 64 * (H/8) * (W/8)
    values. *)
Theorem encoder_shapes_with_numeric_padding :
  forall (A : Type) (S : Scalar A) (self : ObservationalEncoder.t A) (x : Tensor A)
         (B c h w : nat) (g : Generator A),
    encoder_layout (8 * h) (8 * w) c self ->
    shape x = [B; c; 8 * h; 8 * w] ->
    0 < h -> 0 < w ->
    exists y g', ObservationalEncoder.forward self x g = (Ok y, g') /\
                 shape y = [B; 128].
Proof.
  intros A S self x B c h w g Hlay Hx Hh Hw.
  exact (encoder_forward_shape A S self x B c h w g Hlay Hx Hh Hw).
Qed.

Lemma encoder_shapes_with_numeric_padding_witness :
  exists y g',
    ObservationalEncoder.forward (encoder0 false) (full [5; 3; 8; 8] 1%R) zero_generator
    = (Ok y, g') /\
    shape y = [5; 128].
Proof.
  apply (encoder_shapes_with_numeric_padding R _ (encoder0 false)
           (full [5; 3; 8; 8] 1%R) 5 3 1 1 zero_generator).
  - repeat split; reflexivity.
  - reflexivity.
  - lia.
  - lia.
Defined.

(** * The claims on values, with special values and overflow *)

(** ** The likelihood estimator *)










(** ** The encoder *)







